(** * mcp_vercel_server.py: tools, dispatch and HTTP responses

    A shallow embedding of the server module [mcp_vercel_server.py]: the
    Python values that travel through it, the process-wide state it reads
    and writes, the nine tool functions with [run_vercel_command], the
    keyword binding done by [tool_func( **params )], the tool discovery of
    [get_registered_tools], and the request handler methods
    [_send_json_response], [_handle_error], [do_OPTIONS], [do_GET] and
    [do_POST].

    Conventions.
    - A Python [str] is a [string], one [ascii] per character.
    - Calls into libraries ([requests.get], [response.json], [json.loads],
      [subprocess.run], [datetime.now], [os.getpid]) are answered by the
      [world]: the model fixes what the module does with each answer, not
      what the answer is.
    - Text that CPython itself produces ([str] of a list, a dict or a float,
      the message of the [TypeError] of a failed call) is kept as a piece of
      an [fstr] rather than spelled out.
    - Printing and writing a response to the socket do not fail, and
      [json.dumps] encodes every [value]: values nested deeper than the
      interpreter's recursion limit allows are outside the model. *)

From Stdlib Require Import String Ascii List ZArith Bool Lia DecimalString PrimFloat.
Import ListNotations.
Local Open Scope string_scope.
Set Warnings "-register-all".

(* ===================================================================== *)
(** ** Python values *)

(** What [json.loads] can return, which is also everything the tools
    receive as arguments and everything they put into an envelope. A dict
    keeps its entries in insertion order. *)
Inductive value : Type :=
| VNone
| VBool (b : bool)
| VInt (n : Z)
| VFloat (x : float)
| VStr (s : string)
| VList (items : list value)
| VDict (entries : list (string * value)).

(** [bool(v)], as used by [if v:] and [not v]. *)
Definition truthy (v : value) : bool :=
  match v with
  | VNone => false
  | VBool b => b
  | VInt n => negb (n =? 0)%Z
  | VFloat x => negb (PrimFloat.eqb x 0%float)
  | VStr s => match s with EmptyString => false | String _ _ => true end
  | VList items => match items with [] => false | _ :: _ => true end
  | VDict entries => match entries with [] => false | _ :: _ => true end
  end.

(** [type(v).__name__]. *)
Definition type_name (v : value) : string :=
  match v with
  | VNone => "NoneType"
  | VBool _ => "bool"
  | VInt _ => "int"
  | VFloat _ => "float"
  | VStr _ => "str"
  | VList _ => "list"
  | VDict _ => "dict"
  end.

(** [v == s] for a string literal [s]. *)
Definition eq_str (v : value) (s : string) : bool :=
  match v with
  | VStr t => String.eqb t s
  | _ => false
  end.

(** [d.get(key)] on the entries of a dict, whatever its values are. *)
Fixpoint dict_get {A : Type} (key : string) (entries : list (string * A))
  : option A :=
  match entries with
  | [] => None
  | (k, v) :: rest => if String.eqb k key then Some v else dict_get key rest
  end.

Definition dict_keys (entries : list (string * value)) : list string :=
  map fst entries.

Fixpoint dict_remove (key : string) (entries : list (string * value))
  : list (string * value) :=
  match entries with
  | [] => []
  | (k, v) :: rest =>
      if String.eqb k key then dict_remove key rest
      else (k, v) :: dict_remove key rest
  end.

Definition mem_str (s : string) (l : list string) : bool :=
  existsb (String.eqb s) l.

(** [str(n)] for an int. *)
Definition str_int (n : Z) : string := NilZero.string_of_int (Z.to_int n).

Definition str_nat (n : nat) : string := NilZero.string_of_uint (Nat.to_uint n).

(** [needle in hay] for two strs. *)
Fixpoint contains (needle hay : string) : bool :=
  prefix needle hay
  || match hay with
     | EmptyString => false
     | String _ rest => contains needle rest
     end.

(** [s[:n]] and [s[-n:]] for [n > 0]. *)
Definition str_take (n : nat) (s : string) : string := substring 0 n s.

Definition str_last (n : nat) (s : string) : string :=
  substring (String.length s - n) n s.

(** [c.isspace()] for the characters a [string] can hold. *)
Definition isspace (c : ascii) : bool :=
  let n := nat_of_ascii c in
  (((9 <=? n) && (n <=? 13)) || ((28 <=? n) && (n <=? 32))
   || (n =? 133) || (n =? 160))%nat.

Fixpoint lstrip (s : string) : string :=
  match s with
  | EmptyString => EmptyString
  | String c rest => if isspace c then lstrip rest else s
  end.

Fixpoint rstrip (s : string) : string :=
  match s with
  | EmptyString => EmptyString
  | String c rest =>
      match rstrip rest with
      | EmptyString => if isspace c then EmptyString else String c EmptyString
      | kept => String c kept
      end
  end.

(** [s.strip()]. *)
Definition strip (s : string) : string := rstrip (lstrip s).

(** [sep.join(parts)]. *)
Fixpoint join (sep : string) (parts : list string) : string :=
  match parts with
  | [] => ""
  | [p] => p
  | p :: rest => p ++ sep ++ join sep rest
  end.

(* ===================================================================== *)
(** ** Exceptions and formatted text *)

(** An exception whose [str(e)] the model knows: the class name and the
    message. *)
Record pyerr : Type := PyErr { err_class : string; err_str : string }.

(** Why [f( **params )] failed before the body of [f] ran. All three are a
    [TypeError]. *)
Inductive bind_failure : Type :=
| NotAMapping (type_of_params : string)
| UnexpectedKeyword (key : string)
| MissingArguments (names : list string).

(** What can reach the [except Exception] of [do_POST]. *)
Inductive exn : Type :=
| Raised (e : pyerr)
| CallTypeError (callee : string) (why : bind_failure)
| DictSliceError.  (* [d[:4]] on a dict: TypeError up to 3.11, KeyError since *)

(** The pieces of an f-string after evaluation. *)
Inductive piece : Type :=
| Lit (s : string)
| Fmt (v : value)       (* [str(v)] of a list, a dict or a float *)
| StrExn (e : exn)      (* [str(e)] of an exception raised by the interpreter *)
| Dumps (v : value).    (* [json.dumps(v, indent=2)] *)

Definition fstr : Type := list piece.

(** [{v}] inside an f-string. *)
Definition fmt (v : value) : piece :=
  match v with
  | VNone => Lit "None"
  | VBool true => Lit "True"
  | VBool false => Lit "False"
  | VInt n => Lit (str_int n)
  | VStr s => Lit s
  | VFloat _ | VList _ | VDict _ => Fmt v
  end.

(** [{str(e)}] inside an f-string. *)
Definition fmt_exn (e : exn) : piece :=
  match e with
  | Raised e => Lit (err_str e)
  | _ => StrExn e
  end.

(* ===================================================================== *)
(** ** Time *)

Record datetime : Type := {
  year : nat; month : nat; day : nat;
  hour : nat; minute : nat; second : nat; microsecond : nat
}.

Fixpoint zeros (n : nat) : string :=
  match n with
  | O => ""
  | S m => String "0" (zeros m)
  end.

(** ["%0<width>d" % n]. *)
Definition pad (width n : nat) : string :=
  let digits := str_nat n in
  zeros (width - String.length digits) ++ digits.

Definition format_datetime (sep : string) (d : datetime) : string :=
  pad 4 (year d) ++ "-" ++ pad 2 (month d) ++ "-" ++ pad 2 (day d) ++ sep
  ++ pad 2 (hour d) ++ ":" ++ pad 2 (minute d) ++ ":" ++ pad 2 (second d)
  ++ match microsecond d with
     | O => ""
     | us => "." ++ pad 6 us
     end.

(** [d.isoformat()] and [str(d)] of a naive datetime. *)
Definition isoformat (d : datetime) : string := format_datetime "T" d.
Definition str_datetime (d : datetime) : string := format_datetime " " d.

(* ===================================================================== *)
(** ** The process and its surroundings *)

(** One [requests.get(url, headers=..., params=...)]. A call without
    [params] and a call with [params={}] are the same request. *)
Record http_get : Type := HttpGet {
  url : fstr;
  headers : list (string * fstr);
  params : list (string * value)
}.

(** The [Response] object: [json] is what [response.json()] does. *)
Record http_response : Type := HttpResponse {
  status_code : Z;
  text : string;
  json : pyerr + value
}.

(** The [CompletedProcess] of [subprocess.run(..., text=True)]. *)
Record completed_process : Type := CompletedProcess {
  returncode : Z;
  stdout : string
}.

(** What a call returns: a value, or an object [json.dumps] rejects. *)
Inductive returned : Type :=
| Value (v : value)
| Object (type_of : string).

(** A call whose body is not modelled: what it prints, and whether it
    raises, returns, or never comes back ([None]: it blocks, or the process
    is gone). *)
Record opaque_outcome : Type := OpaqueOutcome {
  op_printed : list fstr;
  op_result : pyerr + option returned
}.

(** The state of the process ([VERCEL_TOKEN], what was printed, the
    outbound calls made so far, how often the clock was read) and the
    answers of everything outside the module. [upstream k req] answers the
    [k]-th outbound call. [opaque] runs the module-level callables whose
    bodies are not modelled (they print, and never touch [VERCEL_TOKEN] or
    call the API). *)
Record world : Type := World {
  VERCEL_TOKEN : value;
  printed : list fstr;
  sent : list http_get;
  clock_reads : nat;
  clock : nat -> datetime;
  upstream : nat -> http_get -> pyerr + http_response;
  vercel_cli : pyerr + completed_process;
  pid : Z;
  opaque : string -> list (string * value) -> opaque_outcome
}.

Definition with_token (token : value) (w : world) : world :=
  World token (printed w) (sent w) (clock_reads w) (clock w) (upstream w)
        (vercel_cli w) (pid w) (opaque w).

Definition with_printed (lines : list fstr) (w : world) : world :=
  World (VERCEL_TOKEN w) lines (sent w) (clock_reads w) (clock w) (upstream w)
        (vercel_cli w) (pid w) (opaque w).

Definition with_sent (reqs : list http_get) (w : world) : world :=
  World (VERCEL_TOKEN w) (printed w) reqs (clock_reads w) (clock w) (upstream w)
        (vercel_cli w) (pid w) (opaque w).

Definition with_clock_reads (n : nat) (w : world) : world :=
  World (VERCEL_TOKEN w) (printed w) (sent w) n (clock w) (upstream w)
        (vercel_cli w) (pid w) (opaque w).

(** Computations that read and write the [world] and may raise an [E]. *)
Definition M (E A : Type) : Type := world -> (E + A) * world.

Definition ret {E A : Type} (a : A) : M E A := fun w => (inr a, w).

Definition raise {E A : Type} (e : E) : M E A := fun w => (inl e, w).

Definition bind {E A B : Type} (c : M E A) (k : A -> M E B) : M E B :=
  fun w =>
    match c w with
    | (inl e, w') => (inl e, w')
    | (inr a, w') => k a w'
    end.

(** [try: body except Exception as e: handler e]. *)
Definition try_except {E E' A : Type} (body : M E A) (handler : E -> M E' A)
  : M E' A :=
  fun w =>
    match body w with
    | (inl e, w') => handler e w'
    | (inr a, w') => (inr a, w')
    end.

Definition lift {E A : Type} (r : E + A) : M E A := fun w => (r, w).

Notation "x <- c ;; k" := (bind c (fun x => k))
  (at level 61, c at next level, right associativity).
Notation "c ;; k" := (bind c (fun _ => k))
  (at level 61, right associativity).

(** [print(line)]. *)
Definition print {E : Type} (line : fstr) : M E unit :=
  fun w => (inr tt, with_printed (printed w ++ [line]) w).

(** [datetime.datetime.now()]. *)
Definition now {E : Type} : M E datetime :=
  fun w => (inr (clock w (clock_reads w)), with_clock_reads (S (clock_reads w)) w).

(** Reading and assigning the global [VERCEL_TOKEN]. *)
Definition read_token {E : Type} : M E value :=
  fun w => (inr (VERCEL_TOKEN w), w).

Definition assign_token {E : Type} (token : value) : M E unit :=
  fun w => (inr tt, with_token token w).

(** [requests.get(...)]: the call is recorded, the world answers. *)
Definition requests_get (req : http_get) : M pyerr http_response :=
  fun w => (upstream w (length (sent w)) req, with_sent (sent w ++ [req]) w).

(** [os.getpid()]. *)
Definition getpid {E : Type} : M E Z := fun w => (inr (pid w), w).

(* ===================================================================== *)
(** ** Operations of Python on values, as [run_vercel_command] and
       [set_vercel_token] use them *)

Definition TypeError (msg : string) : pyerr := PyErr "TypeError" msg.

(** [v[i]] for [i >= 0]. The keys of a dict that came from JSON are strs, so
    an int is never among them; [str(KeyError(i))] is [repr(i)]. *)
Definition py_getitem (v : value) (i : nat) : pyerr + value :=
  match v with
  | VList items =>
      match nth_error items i with
      | Some x => inr x
      | None => inl (PyErr "IndexError" "list index out of range")
      end
  | VStr s =>
      match String.get i s with
      | Some c => inr (VStr (String c EmptyString))
      | None => inl (PyErr "IndexError" "string index out of range")
      end
  | VDict _ => inl (PyErr "KeyError" (str_nat i))
  | _ => inl (TypeError ("'" ++ type_name v ++ "' object is not subscriptable"))
  end.

(** [len(v)]. *)
Definition py_len (v : value) : pyerr + nat :=
  match v with
  | VStr s => inr (String.length s)
  | VList items => inr (List.length items)
  | VDict entries => inr (List.length entries)
  | _ => inl (TypeError ("object of type '" ++ type_name v ++ "' has no len()"))
  end.

(** [s in v] for a string literal [s]. *)
Definition py_contains_str (s : string) (v : value) : pyerr + bool :=
  match v with
  | VList items => inr (existsb (fun x => eq_str x s) items)
  | VStr t => inr (contains s t)
  | VDict entries => inr (mem_str s (dict_keys entries))
  | _ => inl (TypeError ("argument of type '" ++ type_name v ++ "' is not iterable"))
  end.

Fixpoint index_of (s : string) (items : list value) : option nat :=
  match items with
  | [] => None
  | x :: rest => if eq_str x s then Some O else option_map S (index_of s rest)
  end.

(** [v.index(s)] for a string literal [s]. *)
Definition py_index_str (s : string) (v : value) : pyerr + nat :=
  match v with
  | VList items =>
      match index_of s items with
      | Some i => inr i
      | None => inl (PyErr "ValueError" ("'" ++ s ++ "' is not in list"))
      end
  | VStr t =>
      match String.index 0 s t with
      | Some i => inr i
      | None => inl (PyErr "ValueError" "substring not found")
      end
  | _ => inl (PyErr "AttributeError"
                    ("'" ++ type_name v ++ "' object has no attribute 'index'"))
  end.

Fixpoint chars (s : string) : list string :=
  match s with
  | EmptyString => []
  | String c rest => String c EmptyString :: chars rest
  end.

(** The strs of a list, or the position and the value of the first item
    that is not a str. *)
Fixpoint strs_from (i : nat) (items : list value) : (nat * value) + list string :=
  match items with
  | [] => inr []
  | VStr s :: rest =>
      match strs_from (S i) rest with
      | inl bad => inl bad
      | inr ss => inr (s :: ss)
      end
  | x :: _ => inl (i, x)
  end.

(** [sep.join(v)]. *)
Definition py_join (sep : string) (v : value) : pyerr + string :=
  match v with
  | VList items =>
      match strs_from 0 items with
      | inr ss => inr (join sep ss)
      | inl (i, x) =>
          inl (TypeError ("sequence item " ++ str_nat i
                          ++ ": expected str instance, " ++ type_name x ++ " found"))
      end
  | VStr s => inr (join sep (chars s))
  | VDict entries => inr (join sep (dict_keys entries))
  | _ => inl (TypeError "can only join an iterable")
  end.

(* ===================================================================== *)
(** ** The tools *)

Definition base_url : string := "https://api.vercel.com".

(** [headers = {"Authorization": f"Bearer {VERCEL_TOKEN}", "Content-Type":
    "application/json"}]. *)
Definition api_headers {E : Type} : M E (list (string * fstr)) :=
  token <- read_token ;;
  ret [("Authorization", [Lit "Bearer "; fmt token]);
       ("Content-Type", [Lit "application/json"])].

(** [response.json()]. *)
Definition response_json (response : http_response) : M pyerr value :=
  lift (json response).

(** The block under [# Process the response], the same text in
    [run_vercel_command] (lines 131-144) and in six tools. *)
Definition process_response (response : http_response) : M pyerr value :=
  if ((200 <=? status_code response) && (status_code response <? 300))%Z then
    data <- response_json response ;;
    t <- now ;;
    ret (VDict [("status", VStr "success");
                ("data", data);
                ("timestamp", VStr (isoformat t))])
  else
    t <- now ;;
    ret (VDict [("status", VStr "error");
                ("message", VStr ("API request failed with status code "
                                  ++ str_int (status_code response)));
                ("error", VStr (text response));
                ("timestamp", VStr (isoformat t))]).

(** The [except Exception as e:] block of [run_vercel_command] and of the
    six tools. *)
Definition api_error {E : Type} (e : pyerr) : M E value :=
  print [Lit "Error calling Vercel API: "; Lit (err_str e)] ;;
  t <- now ;;
  ret (VDict [("status", VStr "error");
              ("message", VStr ("Error: " ++ err_str e));
              ("timestamp", VStr (isoformat t))]).

(** What the tools return under [if not VERCEL_TOKEN:]. *)
Definition token_not_configured {E : Type} : M E value :=
  t <- now ;;
  ret (VDict [("status", VStr "error");
              ("message", VStr "Vercel token not configured. Please set the VERCEL_TOKEN environment variable.");
              ("timestamp", VStr (isoformat t))]).

(** [print(f"Tool call: <name> at {datetime.datetime.now()}")]. *)
Definition print_tool_call {E : Type} (name : string) : M E unit :=
  t <- now ;;
  print [Lit "Tool call: "; Lit name; Lit " at "; Lit (str_datetime t)].

(** Lines 91-151. Called by [list_projects] with [["ls"]]; reachable over
    HTTP with any JSON value as [command_args]. *)
Definition run_vercel_command (command_args : value) : M exn value :=
  try_except
    (headers <- api_headers ;;
     first <- lift (py_getitem command_args 0) ;;
     is_ls <- (if eq_str first "ls" then ret true
               else
                 n <- lift (py_len command_args) ;;
                 if (2 <=? n)%nat then
                   first <- lift (py_getitem command_args 0) ;;
                   if eq_str first "project" then
                     second <- lift (py_getitem command_args 1) ;;
                     ret (eq_str second "ls")
                   else ret false
                 else ret false) ;;
     if is_ls : bool then
       response <- requests_get
                     (HttpGet [Lit base_url; Lit "/v9/projects"] headers []) ;;
       process_response response
     else
       first <- lift (py_getitem command_args 0) ;;
       if eq_str first "list" then
         n <- lift (py_len command_args) ;;
         name_filter <- (if (1 <? n)%nat then
                           second <- lift (py_getitem command_args 1) ;;
                           if negb (eq_str second "--limit")
                           then ret [("name", second)] else ret []
                         else ret []) ;;
         has_limit <- lift (py_contains_str "--limit" command_args) ;;
         limit <- (if has_limit : bool then
                     limit_index <- lift (py_index_str "--limit" command_args) ;;
                     n <- lift (py_len command_args) ;;
                     if (limit_index + 1 <? n)%nat then
                       v <- lift (py_getitem command_args (limit_index + 1)) ;;
                       ret [("limit", v)]
                     else ret []
                   else ret []) ;;
         response <- requests_get
                       (HttpGet [Lit base_url; Lit "/v6/deployments"] headers
                                (name_filter ++ limit)) ;;
         process_response response
       else
         joined <- lift (py_join " " command_args) ;;
         t <- now ;;
         ret (VDict [("status", VStr "error");
                     ("message", VStr ("Unsupported command: " ++ joined));
                     ("timestamp", VStr (isoformat t))]))
    api_error.

(** The [try: ... except Exception as e: ...] of the six tools that call
    the API themselves: build the headers, send one GET, process the
    response. *)
Definition try_get (endpoint : fstr) (query : list (string * value))
  : M exn value :=
  try_except
    (headers <- api_headers ;;
     response <- requests_get (HttpGet (Lit base_url :: endpoint) headers query) ;;
     process_response response)
    api_error.

Definition list_projects : M exn value :=
  print_tool_call "list_projects" ;;
  token <- read_token ;;
  if negb (truthy token) then token_not_configured
  else run_vercel_command (VList [VStr "ls"]).

Definition list_deployments (project_id limit : value) : M exn value :=
  t <- now ;;
  print [Lit "Tool call: list_deployments for project_id: "; fmt project_id;
         Lit " at "; Lit (str_datetime t)] ;;
  token <- read_token ;;
  if negb (truthy token) then token_not_configured
  else
    try_get [Lit "/v6/deployments"]
            ((if truthy project_id then [("projectId", project_id)] else [])
             ++ (if truthy limit then [("limit", limit)] else [])).

Definition get_project_info (project_id : value) : M exn value :=
  print_tool_call "get_project_info" ;;
  token <- read_token ;;
  if negb (truthy token) then token_not_configured
  else try_get [Lit "/v9/projects/"; fmt project_id] [].

Definition list_project_domains (project_id : value) : M exn value :=
  print_tool_call "list_project_domains" ;;
  token <- read_token ;;
  if negb (truthy token) then token_not_configured
  else try_get [Lit "/v9/projects/"; fmt project_id; Lit "/domains"] [].

Definition list_environment_variables (project_id : value) : M exn value :=
  print_tool_call "list_environment_variables" ;;
  token <- read_token ;;
  if negb (truthy token) then token_not_configured
  else try_get [Lit "/v9/projects/"; fmt project_id; Lit "/env"] [].

Definition get_user_info : M exn value :=
  print_tool_call "get_user_info" ;;
  token <- read_token ;;
  if negb (truthy token) then token_not_configured
  else try_get [Lit "/v2/user"] [].

Definition list_deployment_aliases (deployment_id : value) : M exn value :=
  print_tool_call "list_deployment_aliases" ;;
  token <- read_token ;;
  if negb (truthy token) then token_not_configured
  else try_get [Lit "/v2/deployments/"; fmt deployment_id; Lit "/aliases"] [].

Definition dquote : string := String (ascii_of_nat 34) EmptyString.

(** [token[:4] + "****" + token[-4:] if len(token) > 8 else "****"]. *)
Definition masked_token (token : value) : exn + string :=
  match py_len token with
  | inl e => inl (Raised e)
  | inr n =>
      if (8 <? n)%nat then
        match token with
        | VStr s => inr (str_take 4 s ++ "****" ++ str_last 4 s)
        | VList _ =>
            inl (Raised (TypeError ("can only concatenate list (not " ++ dquote
                                    ++ "str" ++ dquote ++ ") to list")))
        | VDict _ => inl DictSliceError
        | _ => inl (Raised (TypeError ("'" ++ type_name token
                                       ++ "' object is not subscriptable")))
        end
      else inr "****"
  end.

Definition set_vercel_token (token : value) : M exn value :=
  print_tool_call "set_vercel_token" ;;
  assign_token token ;;
  masked <- lift (masked_token token) ;;
  print [Lit "Vercel token updated: "; Lit masked] ;;
  t <- now ;;
  ret (VDict [("status", VStr "success");
              ("message", VStr "Vercel token updated successfully");
              ("timestamp", VStr (isoformat t))]).

(** [subprocess.run(["vercel", "--version"], capture_output=True, text=True)]. *)
Definition subprocess_run : M pyerr completed_process :=
  fun w => (vercel_cli w, w).

Definition check_server_status : M exn value :=
  print_tool_call "check_server_status" ;;
  cli <- try_except
           (result <- subprocess_run ;;
            let vercel_installed := (returncode result =? 0)%Z in
            ret (vercel_installed,
                 if vercel_installed then strip (stdout result) else "Not installed"))
           (fun _ => ret (false, "Not installed")) ;;
  token <- read_token ;;
  p <- getpid ;;
  t <- now ;;
  ret (VDict [("status", VStr "online");
              ("server_name", VStr "MCP Vercel CLI Server");
              ("version", VStr "1.0.0");
              ("vercel_cli_installed", VBool (fst cli));
              ("vercel_cli_version", VStr (snd cli));
              ("vercel_token_configured", VBool (truthy token));
              ("pid", VInt p);
              ("timestamp", VStr (isoformat t))]).

(* ===================================================================== *)
(** ** The module namespace and calls by keyword *)

(** The functions the module defines. [@mcp.tool()] hands the decorated
    function back, so each tool name is bound to the function itself. *)
Inductive function : Type :=
| fn_get_registered_tools
| fn_run_vercel_command
| fn_list_projects
| fn_list_deployments
| fn_get_project_info
| fn_set_vercel_token
| fn_check_server_status
| fn_list_project_domains
| fn_list_environment_variables
| fn_get_user_info
| fn_list_deployment_aliases
| fn_check_port_in_use
| fn_main.

Definition function_name (f : function) : string :=
  match f with
  | fn_get_registered_tools => "get_registered_tools"
  | fn_run_vercel_command => "run_vercel_command"
  | fn_list_projects => "list_projects"
  | fn_list_deployments => "list_deployments"
  | fn_get_project_info => "get_project_info"
  | fn_set_vercel_token => "set_vercel_token"
  | fn_check_server_status => "check_server_status"
  | fn_list_project_domains => "list_project_domains"
  | fn_list_environment_variables => "list_environment_variables"
  | fn_get_user_info => "get_user_info"
  | fn_list_deployment_aliases => "list_deployment_aliases"
  | fn_check_port_in_use => "check_port_in_use"
  | fn_main => "main"
  end.

(** The parameters of a [def], each with its default if it has one. *)
Definition signature_of (f : function) : list (string * option value) :=
  match f with
  | fn_get_registered_tools => []
  | fn_run_vercel_command => [("command_args", None)]
  | fn_list_projects => []
  | fn_list_deployments => [("project_id", Some VNone); ("limit", Some (VInt 5))]
  | fn_get_project_info => [("project_id", None)]
  | fn_set_vercel_token => [("token", None)]
  | fn_check_server_status => []
  | fn_list_project_domains => [("project_id", None)]
  | fn_list_environment_variables => [("project_id", None)]
  | fn_get_user_info => []
  | fn_list_deployment_aliases => [("deployment_id", None)]
  | fn_check_port_in_use => [("host", None); ("port", None)]
  | fn_main => []
  end.

Definition parameter_names (sig : list (string * option value)) : list string :=
  map fst sig.

(** The first keyword that names no parameter. *)
Definition unexpected_keyword (sig : list (string * option value))
  (kwargs : list (string * value)) : option string :=
  find (fun k => negb (mem_str k (parameter_names sig))) (dict_keys kwargs).

(** The parameters left without a value. *)
Definition missing_arguments (sig : list (string * option value))
  (kwargs : list (string * value)) : list string :=
  parameter_names
    (filter (fun p => match dict_get (fst p) kwargs, snd p with
                      | None, None => true
                      | _, _ => false
                      end) sig).

Definition argument (kwargs : list (string * value)) (p : string * option value)
  : value :=
  match dict_get (fst p) kwargs, snd p with
  | Some v, _ => v
  | None, Some default => default
  | None, None => VNone
  end.

(** Binding [f( **kwargs )]: every keyword must name a parameter and every
    parameter without a default must be given. The arguments come back in
    the order of the parameters. *)
Definition bind_args (sig : list (string * option value))
  (kwargs : list (string * value)) : bind_failure + list value :=
  match unexpected_keyword sig kwargs with
  | Some k => inl (UnexpectedKeyword k)
  | None =>
      match missing_arguments sig kwargs with
      | [] => inr (map (argument kwargs) sig)
      | names => inl (MissingArguments names)
      end
  end.

(** A callable whose body is not modelled. *)
Definition run_opaque (name : string) (kwargs : list (string * value))
  : M exn (option returned) :=
  fun w =>
    let o := opaque w name kwargs in
    (match op_result o with
     | inl e => inl (Raised e)
     | inr r => inr r
     end,
     with_printed (printed w ++ op_printed o) w).

Definition returns (body : M exn value) : M exn (option returned) :=
  v <- body ;; ret (Some (Value v)).

(** The body of [f] on bound arguments. [get_registered_tools],
    [check_port_in_use] and [main] introspect the interpreter, open sockets
    and start the server: they are run by the world. *)
Definition apply (f : function) (args : list value) : M exn (option returned) :=
  let arg i := nth i args VNone in
  match f with
  | fn_run_vercel_command => returns (run_vercel_command (arg 0%nat))
  | fn_list_projects => returns list_projects
  | fn_list_deployments => returns (list_deployments (arg 0%nat) (arg 1%nat))
  | fn_get_project_info => returns (get_project_info (arg 0%nat))
  | fn_set_vercel_token => returns (set_vercel_token (arg 0%nat))
  | fn_check_server_status => returns check_server_status
  | fn_list_project_domains => returns (list_project_domains (arg 0%nat))
  | fn_list_environment_variables => returns (list_environment_variables (arg 0%nat))
  | fn_get_user_info => returns get_user_info
  | fn_list_deployment_aliases => returns (list_deployment_aliases (arg 0%nat))
  | fn_get_registered_tools | fn_check_port_in_use | fn_main =>
      run_opaque (function_name f) (combine (parameter_names (signature_of f)) args)
  end.

(** What a global name can be bound to. *)
Inductive pyobj : Type :=
| Module
| Instance                 (* an object that is not callable *)
| Const (v : value)
| Function (f : function)
| Class (name : string).

Definition callable (o : pyobj) : bool :=
  match o with
  | Function _ | Class _ => true
  | Module | Instance | Const _ => false
  end.

(** [bool(o)]. *)
Definition truthy_obj (o : pyobj) : bool :=
  match o with
  | Const v => truthy v
  | _ => true
  end.

(** [globals()] of the running module, in the order the names are bound.
    The names the interpreter adds ([__name__], [__doc__], [__file__], ...)
    are bound to strs, [None] and a loader, none of them callable. *)
Definition module_globals (w : world) : list (string * pyobj) :=
  [("__name__", Instance); ("__doc__", Instance); ("__package__", Instance);
   ("__loader__", Instance); ("__spec__", Instance); ("__builtins__", Module);
   ("__file__", Instance);
   ("sys", Module); ("datetime", Module); ("os", Module); ("socket", Module);
   ("threading", Module); ("json", Module); ("subprocess", Module);
   ("re", Module);
   ("HTTPServer", Class "HTTPServer");
   ("BaseHTTPRequestHandler", Class "BaseHTTPRequestHandler");
   ("FastMCP", Class "FastMCP");
   ("time", Module); ("requests", Module);
   ("mcp", Instance);
   ("HOST", Const (VStr "0.0.0.0"));
   ("PORT", Const (VInt 8002));
   ("VERCEL_TOKEN", Const (VERCEL_TOKEN w));
   ("get_registered_tools", Function fn_get_registered_tools);
   ("run_vercel_command", Function fn_run_vercel_command);
   ("list_projects", Function fn_list_projects);
   ("list_deployments", Function fn_list_deployments);
   ("get_project_info", Function fn_get_project_info);
   ("set_vercel_token", Function fn_set_vercel_token);
   ("check_server_status", Function fn_check_server_status);
   ("list_project_domains", Function fn_list_project_domains);
   ("list_environment_variables", Function fn_list_environment_variables);
   ("get_user_info", Function fn_get_user_info);
   ("list_deployment_aliases", Function fn_list_deployment_aliases);
   ("MCPHTTPHandler", Class "MCPHTTPHandler");
   ("check_port_in_use", Function fn_check_port_in_use);
   ("main", Function fn_main)].

(** [globals().get(name)]. *)
Definition globals_get {E : Type} (name : string) : M E (option pyobj) :=
  fun w => (inr (dict_get name (module_globals w)), w).

(** [tool_func( **params )]. *)
Definition call (tool_func : pyobj) (params : value) : M exn (option returned) :=
  match tool_func with
  | Function f =>
      match params with
      | VDict kwargs =>
          match bind_args (signature_of f) kwargs with
          | inl why => raise (CallTypeError (function_name f) why)
          | inr args => apply f args
          end
      | _ => raise (CallTypeError (function_name f) (NotAMapping (type_name params)))
      end
  | Class name =>
      match params with
      | VDict kwargs => run_opaque name kwargs
      | _ => raise (CallTypeError name (NotAMapping (type_name params)))
      end
  | _ => raise (Raised (TypeError "object is not callable"))
  end.

(** The names in [known_tools] (lines 60-64), the tools the server lists. *)
Definition known_tools : list string :=
  ["list_projects"; "list_deployments"; "get_project_info";
   "check_server_status"; "set_vercel_token"; "list_project_domains";
   "list_environment_variables"; "get_user_info"; "list_deployment_aliases"].

(* ===================================================================== *)
(** ** The request handler *)

(** The bytes written after the headers. *)
Inductive payload : Type :=
| JsonBody (data : value)       (* [json.dumps(data, indent=2).encode('utf-8')] *)
| ErrorBody (message : fstr).   (* [json.dumps({"error": message}).encode('utf-8')] *)

Inductive header_value : Type :=
| Header (s : string)
| LengthOf (p : payload)        (* [str(len(bytes))] of the payload *)
| VersionString                 (* [self.version_string()] *)
| DateTimeString.               (* [self.date_time_string()] *)

(** One response on the wire: the status line, the header lines in the
    order they are sent, the body if one is written. *)
Record response : Type := Response {
  code : Z;
  header_lines : list (string * header_value);
  body : option payload
}.

(** [self.send_response(code)] of [BaseHTTPRequestHandler]: the status
    line, then the [Server] and [Date] headers. The access-log line it
    prints through [log_message] is not recorded in [printed]. *)
Definition send_response : list (string * header_value) :=
  [("Server", VersionString); ("Date", DateTimeString)].

(** Lines 541-548; no handler calls it. *)
Definition _set_headers (content_type : string) : response :=
  Response 200
    (send_response
     ++ [("Content-type", Header content_type);
         ("Access-Control-Allow-Origin", Header "*");
         ("Connection", Header "close");
         ("Content-Length", Header "0")])
    None.

(** What [_send_json_response] writes for [data] (lines 556-565). *)
Definition json_response (data : value) : response :=
  Response 200
    (send_response
     ++ [("Content-type", Header "application/json");
         ("Access-Control-Allow-Origin", Header "*");
         ("Connection", Header "close");
         ("Content-Length", LengthOf (JsonBody data))])
    (Some (JsonBody data)).

(** [json.dumps] comes first and raises on an object it cannot encode. *)
Definition _send_json_response (data : returned) : M exn response :=
  match data with
  | Object type_of =>
      raise (Raised (TypeError ("Object of type " ++ type_of
                                ++ " is not JSON serializable")))
  | Value v =>
      print [Lit "Sending JSON response:"] ;;
      print [Dumps v] ;;
      ret (json_response v)
  end.

(** What [_handle_error] writes (lines 569-578). *)
Definition error_response (status_code : Z) (message : fstr) : response :=
  Response status_code
    (send_response
     ++ [("Content-type", Header "application/json");
         ("Connection", Header "close");
         ("Content-Length", LengthOf (ErrorBody message))])
    (Some (ErrorBody message)).

Definition _handle_error {E : Type} (status_code : Z) (message : fstr)
  : M E response :=
  ret (error_response status_code message).

Definition do_OPTIONS : response :=
  Response 200
    (send_response
     ++ [("Access-Control-Allow-Origin", Header "*");
         ("Access-Control-Allow-Methods", Header "GET, POST, OPTIONS");
         ("Access-Control-Allow-Headers", Header "Content-Type")])
    None.

(** A POST as the handler sees it: the path, the outcome of lines 638-639
    ([int] of the Content-Length header, the read, the decoding: a str, or
    an exception that nothing catches), and what [json.loads] makes of that
    str: [inr (Some v)] when it returns [v], [inr None] when it raises
    [JSONDecodeError], and [inl e] when it raises anything else (a
    [RecursionError] on input nested too deep, the [ValueError] of an int
    with more digits than the interpreter converts), which line 646 does
    not catch. *)
Record request : Type := Request {
  path : string;
  read_body : pyerr + string;
  json_loads : pyerr + option value
}.

(** [self.path[7:]]. *)
Definition tool_name_of (path : string) : string :=
  substring 7 (String.length path - 7) path.

Definition is_empty (s : string) : bool :=
  match s with EmptyString => true | String _ _ => false end.

(** Lines 641-646: [params = {}], replaced by [json.loads(post_data)] when
    [post_data] is not empty; [inr None] when [json.loads] raises the
    [JSONDecodeError] that line 646 catches, [inl e] when it raises another
    exception [e]. *)
Definition params_of (req : request) (post_data : string)
  : pyerr + option value :=
  if is_empty post_data then inr (Some (VDict [])) else json_loads req.

(** Lines 656-663: the call of the tool and the response to its result,
    under [try: ... except Exception as e: ...]. *)
Definition call_tool (tool_name : string) (tool_func : pyobj) (params : value)
  : M pyerr (option response) :=
  try_except
    (print [Lit "Calling tool: "; Lit tool_name;
            Lit " with params: "; fmt params] ;;
     result <- call tool_func params ;;
     match result with
     | None => ret None
     | Some data =>
         r <- _send_json_response data ;;
         ret (Some r)
     end)
    (fun e =>
       print [Lit "Error calling tool "; Lit tool_name; Lit ": "; fmt_exn e] ;;
       r <- _handle_error 500 [Lit "Error calling tool: "; fmt_exn e] ;;
       ret (Some r)).

(** [do_POST]. [inl e]: the exception [e] leaves the handler; [inr None]:
    the handler never answers; [inr (Some r)]: it writes [r]. *)
Definition do_POST (req : request) : M pyerr (option response) :=
  print [Lit "Received POST request: "; Lit (path req)] ;;
  if prefix "/tools/" (path req) then
    let tool_name := tool_name_of (path req) in
    print [Lit "Calling tool: "; Lit tool_name] ;;
    post_data <- lift (read_body req) ;;
    params <- lift (params_of req post_data) ;;
    match params with
    | None =>
        r <- _handle_error 400 [Lit "Invalid JSON in request body"] ;;
        ret (Some r)
    | Some params =>
        tool_func <- globals_get tool_name ;;
        match tool_func with
        | Some f =>
            if truthy_obj f && callable f then call_tool tool_name f params
            else
              r <- _handle_error 404 [Lit "Tool '"; Lit tool_name; Lit "' not found"] ;;
              ret (Some r)
        | None =>
            r <- _handle_error 404 [Lit "Tool '"; Lit tool_name; Lit "' not found"] ;;
            ret (Some r)
        end
    end
  else
    r <- _handle_error 404 [Lit "Not found: "; Lit (path req)] ;;
    ret (Some r).

(* ===================================================================== *)
(** ** Reading envelopes and worlds *)

(** [envelope[key]] when the envelope is a dict holding [key]. *)
Definition field (key : string) (envelope : value) : option value :=
  match envelope with
  | VDict entries => dict_get key entries
  | _ => None
  end.

(** The value and the world a computation ends with. *)
Definition outcome {E A : Type} (c : M E A) (w : world) : E + A := fst (c w).
Definition after {E A : Type} (c : M E A) (w : world) : world := snd (c w).

(** The response code of a handled request, if a response was written. *)
Definition response_code (o : pyerr + option response) : option Z :=
  match o with
  | inr (Some r) => Some (code r)
  | _ => None
  end.

(** The tools that return the token guard's envelope when [VERCEL_TOKEN]
    is falsy. *)
Definition requires_credential (f : function) : bool :=
  match f with
  | fn_list_projects | fn_list_deployments | fn_get_project_info
  | fn_list_project_domains | fn_list_environment_variables
  | fn_get_user_info | fn_list_deployment_aliases => true
  | _ => false
  end.

(** The functions behind the names of [known_tools]. *)
Definition is_tool (f : function) : bool :=
  mem_str (function_name f) known_tools.

(** A world for examples: nothing printed or sent yet, a clock that
    advances one second per reading, an upstream that answers every call
    with [answer], no [vercel] executable. *)
Definition example_clock (n : nat) : datetime :=
  {| year := 2025; month := 3; day := 14;
     hour := 9; minute := 26; second := n; microsecond := 0 |}.

Definition quiet : opaque_outcome := OpaqueOutcome [] (inr (Some (Value VNone))).

Definition example_world (token : value) (answer : pyerr + http_response) : world :=
  World token [] [] 0 example_clock (fun _ _ => answer)
        (inl (PyErr "FileNotFoundError" "[Errno 2] No such file or directory: 'vercel'"))
        4242 (fun _ _ => quiet).

(** Three answers of the upstream API. *)
Definition no_json : pyerr :=
  PyErr "JSONDecodeError" "Expecting value: line 1 column 1 (char 0)".

Definition ok_200 : pyerr + http_response :=
  inr (HttpResponse 200 "[1, 2]" (inr (VList [VInt 1; VInt 2]))).

Definition not_found_404 : pyerr + http_response :=
  inr (HttpResponse 404 "not found" (inl no_json)).

Definition no_content_204 : pyerr + http_response :=
  inr (HttpResponse 204 "" (inl no_json)).

(** Some str inside [v], a key or a value at any depth, contains [needle]. *)
Fixpoint mentions (needle : string) (v : value) : bool :=
  match v with
  | VStr s => contains needle s
  | VList items => existsb (mentions needle) items
  | VDict entries =>
      existsb (fun kv => contains needle (fst kv) || mentions needle (snd kv))
              entries
  | _ => false
  end.

(** [c in s] for a character. *)
Fixpoint has_char (c : ascii) (s : string) : bool :=
  match s with
  | EmptyString => false
  | String d rest => Ascii.eqb c d || has_char c rest
  end.

(** The world after a line that reads the clock has been printed. *)
Definition stamped (line : datetime -> fstr) (w : world) : world :=
  with_printed (printed w ++ [line (clock w (clock_reads w))])
               (with_clock_reads (S (clock_reads w)) w).

Definition tool_call_line (name : string) (t : datetime) : fstr :=
  [Lit "Tool call: "; Lit name; Lit " at "; Lit (str_datetime t)].

(** The request [try_get] sends from [w]. *)
Definition get_request (w : world) (endpoint : fstr)
  (query : list (string * value)) : http_get :=
  HttpGet (Lit base_url :: endpoint)
          [("Authorization", [Lit "Bearer "; fmt (VERCEL_TOKEN w)]);
           ("Content-Type", [Lit "application/json"])]
          query.

Definition in_2xx (r : http_response) : bool :=
  ((200 <=? status_code r) && (status_code r <? 300))%Z.

(** The three envelopes of the API tools, and which one an answer of the
    upstream API leads to. *)
Definition success_envelope (data : value) (ts : string) : value :=
  VDict [("status", VStr "success"); ("data", data); ("timestamp", VStr ts)].

Definition upstream_error_envelope (r : http_response) (ts : string) : value :=
  VDict [("status", VStr "error");
         ("message", VStr ("API request failed with status code "
                           ++ str_int (status_code r)));
         ("error", VStr (text r));
         ("timestamp", VStr ts)].

Definition exception_envelope (e : pyerr) (ts : string) : value :=
  VDict [("status", VStr "error");
         ("message", VStr ("Error: " ++ err_str e));
         ("timestamp", VStr ts)].

Definition envelope_for (answer : pyerr + http_response) (ts : string) : value :=
  match answer with
  | inl e => exception_envelope e ts
  | inr r =>
      if in_2xx r then
        match json r with
        | inr data => success_envelope data ts
        | inl e => exception_envelope e ts
        end
      else upstream_error_envelope r ts
  end.

(** The world after [print(line)]. *)
Definition printing (line : fstr) (w : world) : world :=
  with_printed (printed w ++ [line]) w.

(** The world in which [do_POST] looks up [name], and the world it hands
    to the callable: two lines printed, then a third. *)
Definition announced (name : string) (w : world) : world :=
  printing [Lit "Calling tool: "; Lit name]
    (printing [Lit "Received POST request: "; Lit ("/tools/" ++ name)] w).

Definition dispatched (name : string) (params : value) (w : world) : world :=
  printing [Lit "Calling tool: "; Lit name; Lit " with params: "; fmt params]
    (announced name w).

(** Two request bodies for examples: a JSON object with the one key [x],
    and text that is not JSON. *)
Definition body_with_x : string := "{" ++ dquote ++ "x" ++ dquote ++ ": 1}".

Definition body_not_json : string := "{not json".


(* ===================================================================== *)
(** ** Vocabulary for the properties of [run_vercel_command] and the tools *)

(** [v] is an envelope: a dict with a [timestamp] str whose [status] is
    [success] or [error]. *)
Definition is_envelope (v : value) : Prop :=
  exists entries ts,
    v = VDict entries
    /\ dict_get "timestamp" entries = Some (VStr ts)
    /\ (dict_get "status" entries = Some (VStr "success")
        \/ dict_get "status" entries = Some (VStr "error")).

(** From [w] to [w']: [VERCEL_TOKEN] kept, at most one request sent. *)
Definition at_most_one_request (w w' : world) : Prop :=
  VERCEL_TOKEN w' = VERCEL_TOKEN w
  /\ (sent w' = sent w \/ exists req, sent w' = (sent w ++ [req])%list).

(** [c] sends nothing and keeps [VERCEL_TOKEN], however it ends. *)
Definition silent {E A : Type} (c : M E A) : Prop :=
  forall w, VERCEL_TOKEN (after c w) = VERCEL_TOKEN w /\ sent (after c w) = sent w.

(** [c], the body of a [try], sends at most one request, keeps
    [VERCEL_TOKEN], and returns nothing but envelopes. *)
Definition well_behaved (c : M pyerr value) : Prop :=
  forall w,
    at_most_one_request w (after c w)
    /\ forall v, outcome c w = inr v -> is_envelope v.

(** The argument lists that make [run_vercel_command] call the API: a list
    that starts with [ls], with [list], or with [project], [ls]. *)
Definition reaches_api (command_args : value) : bool :=
  match command_args with
  | VList (first :: rest) =>
      eq_str first "ls" || eq_str first "list"
      || (eq_str first "project"
          && match rest with
             | second :: _ => eq_str second "ls"
             | [] => false
             end)
  | _ => false
  end.

(* ===================================================================== *)
(** ** Tool discovery and [do_GET] *)

(** [c.lower()] and [s.lower()] for the characters of an identifier. *)
Definition lower_ascii (c : ascii) : ascii :=
  let n := nat_of_ascii c in
  if ((65 <=? n) && (n <=? 90))%nat then ascii_of_nat (n + 32) else c.

Fixpoint lower (s : string) : string :=
  match s with
  | EmptyString => EmptyString
  | String c rest => String (lower_ascii c) (lower rest)
  end.

(** Line 52: [attr_name.startswith('__mcp') or 'mcp' in attr_name.lower()]. *)
Definition mcp_related (attr_name : string) : bool :=
  prefix "__mcp" attr_name || contains "mcp" (lower attr_name).

Definition is_nil {A : Type} (l : list A) : bool :=
  match l with [] => true | _ :: _ => false end.

Definition newline : string := String (ascii_of_nat 10) EmptyString.

(** The check mark U+2713 of lines 72 and 83, as its three UTF-8 bytes. *)
Definition check_mark : string :=
  String (ascii_of_nat 226) (String (ascii_of_nat 156)
    (String (ascii_of_nat 147) EmptyString)).

(** [globals().items()]. *)
Definition globals_items {E : Type} : M E (list (string * pyobj)) :=
  fun w => (inr (module_globals w), w).

(** Lines 43-72 for one binding of [globals()]: the names it appends to
    [tools]. [dir] answers [dir(func)]: the attribute names of an object
    are the interpreter's and the libraries' to give. *)
Definition inspect {E : Type} (dir : pyobj -> list string)
  (name : string) (func : pyobj) : M E (list string) :=
  if callable func then
    print [Lit "Checking function: "; Lit name] ;;
    let tool_attrs := filter mcp_related (dir func) in
    (if is_nil tool_attrs then ret tt
     else print [Lit "  Found MCP-related attributes: ";
                 Lit (join ", " tool_attrs)]) ;;
    (if mem_str name known_tools
     then print [Lit "  Recognized as known tool by name"]
     else ret tt) ;;
    if negb (is_nil tool_attrs) || mem_str name known_tools then
      print [Lit "  "; Lit check_mark; Lit " Added tool: "; Lit name] ;;
      ret [name]
    else ret []
  else ret [].

(** The loop of line 42 over the bindings, [tools] being the list so far. *)
Fixpoint inspect_all {E : Type} (dir : pyobj -> list string)
  (bindings : list (string * pyobj)) (tools : list string) : M E (list string) :=
  match bindings with
  | [] => ret tools
  | (name, func) :: rest =>
      found <- inspect dir name func ;;
      inspect_all dir rest (tools ++ found)
  end.

(** The loop of lines 82-83. *)
Fixpoint print_hardcoded {E : Type} (tools : list string) : M E unit :=
  match tools with
  | [] => ret tt
  | tool :: rest =>
      print [Lit "  "; Lit check_mark; Lit " Added hardcoded tool: "; Lit tool] ;;
      print_hardcoded rest
  end.

(** Lines 32-86. The list of lines 77-81 is the list of lines 60-64. *)
Definition get_registered_tools {E : Type} (dir : pyobj -> list string)
  : M E (list string) :=
  print [Lit (newline ++ "=== TOOL DISCOVERY ===")] ;;
  print [Lit "Looking for registered tools..."] ;;
  bindings <- globals_items ;;
  found <- inspect_all dir bindings [] ;;
  tools <- (if is_nil found then
              print [Lit "No tools found via function inspection, using hardcoded list"] ;;
              print_hardcoded known_tools ;;
              ret known_tools
            else ret found) ;;
  print [Lit "Total tools discovered: "; Lit (str_nat (length tools))] ;;
  ret tools.

Definition no_description : string := "No description available".

(** Lines 605-607. [doc] answers [tool_func.__doc__], [None] when the
    object has no docstring. *)
Definition description_of (doc : pyobj -> option string)
  (tool_func : option pyobj) : string :=
  match tool_func with
  | Some f =>
      if truthy_obj f then
        match doc f with
        | Some d => if is_empty d then no_description else strip d
        | None => no_description
        end
      else no_description
  | None => no_description
  end.

(** Lines 601-612 for one tool name. *)
Definition describe {E : Type} (doc : pyobj -> option string)
  (tool_name : string) : M E value :=
  tool_func <- globals_get tool_name ;;
  ret (VDict [("name", VStr tool_name);
              ("description", VStr (description_of doc tool_func))]).

Fixpoint describe_all {E : Type} (doc : pyobj -> option string)
  (registered_tools : list string) : M E (list value) :=
  match registered_tools with
  | [] => ret []
  | tool_name :: rest =>
      entry <- describe doc tool_name ;;
      entries <- describe_all doc rest ;;
      ret (entry :: entries)
  end.

Definition welcome_data : value :=
  VDict [("name", VStr "MCP Vercel CLI Server");
         ("version", VStr "1.0.0");
         ("description", VStr "A server that implements the Model Context Protocol for Vercel CLI operations");
         ("status", VStr "running")].

(** [do_GET] (lines 588-626) for the path of the request. *)
Definition do_GET (dir : pyobj -> list string) (doc : pyobj -> option string)
  (path : string) : M exn response :=
  print [Lit "Received GET request: "; Lit path] ;;
  if String.eqb path "/tools" then
    t <- now ;;
    print [Lit "MCP tool discovery request received at "; Lit (str_datetime t)] ;;
    registered_tools <- get_registered_tools dir ;;
    tools_list <- describe_all doc registered_tools ;;
    _send_json_response (Value (VList tools_list))
  else if String.eqb path "/" then
    _send_json_response (Value welcome_data)
  else
    _handle_error 404 [Lit "Not found: "; Lit path].

(** The bindings [get_registered_tools] picks. *)
Definition discovered (dir : pyobj -> list string) (binding : string * pyobj)
  : bool :=
  callable (snd binding)
  && (negb (is_nil (filter mcp_related (dir (snd binding))))
      || mem_str (fst binding) known_tools).

(** The entry of [tools_list] for a name, in a module namespace. *)
Definition tool_entry (doc : pyobj -> option string)
  (namespace : list (string * pyobj)) (tool_name : string) : value :=
  VDict [("name", VStr tool_name);
         ("description", VStr (description_of doc (dict_get tool_name namespace)))].

(** [c] returns [a] from [w] and has neither assigned [VERCEL_TOKEN] nor
    called the API. *)
Definition yields {E A : Type} (c : M E A) (w : world) (a : A) : Prop :=
  exists w' : world,
    c w = (inr a, w')
    /\ VERCEL_TOKEN w' = VERCEL_TOKEN w
    /\ sent w' = sent w.

(* ===================================================================== *)
(** * Properties *)

Arguments isoformat : simpl never.
Arguments str_datetime : simpl never.
Arguments str_int : simpl never.
Arguments str_nat : simpl never.
Arguments strip : simpl never.

Ltac conjuncts := repeat match goal with |- _ /\ _ => split end.

(* ===================================================================== *)
(** ** Strings and lists *)

Lemma not_self_snoc {A : Type} (l : list A) (x : A) : l <> (l ++ [x])%list.
Proof.
  intro H. apply (f_equal (@List.length A)) in H.
  rewrite length_app in H. simpl in H. lia.
Qed.

Lemma mem_str_In (s : string) (l : list string) : mem_str s l = true <-> In s l.
Proof.
  unfold mem_str. rewrite existsb_exists. split.
  - intros (x & Hin & Heq). apply String.eqb_eq in Heq. now subst.
  - intro Hin. exists s. split; [exact Hin | apply String.eqb_refl].
Qed.

Lemma prefix_refl (s : string) : prefix s s = true.
Proof.
  induction s as [|c s IH]; simpl; [reflexivity|].
  destruct (ascii_dec c c); [exact IH | congruence].
Qed.

Lemma prefix_app (s t : string) : prefix s (s ++ t) = true.
Proof.
  induction s as [|c s IH]; simpl; [destruct t; reflexivity|].
  destruct (ascii_dec c c); [exact IH | congruence].
Qed.

Lemma contains_app_l (p s h : string) :
  contains s h = true -> contains s (p ++ h) = true.
Proof.
  induction p as [|c p IH]; simpl; intro H; [exact H|].
  rewrite (IH H). apply orb_true_r.
Qed.

Lemma contains_suffix (p s : string) : contains s (p ++ s) = true.
Proof.
  apply contains_app_l. destruct s as [|c s]; [reflexivity|].
  simpl. destruct (ascii_dec c c); [|congruence]. now rewrite prefix_refl.
Qed.

Lemma has_char_app (c : ascii) (s t : string) :
  has_char c (s ++ t) = has_char c s || has_char c t.
Proof.
  induction s as [|d s IH]; simpl; [reflexivity|].
  now rewrite IH, orb_assoc.
Qed.

Lemma prefix_has_char (c : ascii) (n h : string) :
  prefix n h = true -> has_char c n = true -> has_char c h = true.
Proof.
  revert n. induction h as [|d h IH]; intros [|e n]; simpl; try discriminate.
  destruct (ascii_dec e d) as [->|]; [|discriminate].
  intros Hp Hc. apply orb_true_iff in Hc as [Hc|Hc].
  - now rewrite Hc.
  - rewrite (IH n Hp Hc). apply orb_true_r.
Qed.

(** A character of the needle is a character of the haystack. *)
Lemma contains_has_char (c : ascii) (n h : string) :
  contains n h = true -> has_char c n = true -> has_char c h = true.
Proof.
  induction h as [|d h IH]; simpl; intros H Hc.
  - rewrite orb_false_r in H. destruct n; [discriminate Hc | discriminate H].
  - apply orb_true_iff in H as [H|H].
    + exact (prefix_has_char c n (String d h) H Hc).
    + rewrite (IH H Hc). apply orb_true_r.
Qed.

Lemma substring_all (s : string) : substring 0 (String.length s) s = s.
Proof. induction s as [|c s IH]; simpl; [reflexivity|]. now rewrite IH. Qed.

(** A str is its first [n] characters followed by the rest. *)
Lemma substring_split (n : nat) (s : string) :
  (n <= String.length s)%nat ->
  s = substring 0 n s ++ substring n (String.length s - n) s.
Proof.
  revert s. induction n as [|n IH]; intros s Hn.
  - rewrite Nat.sub_0_r, substring_all. destruct s; reflexivity.
  - destruct s as [|c s]; simpl in *; [lia|].
    f_equal. apply IH. lia.
Qed.

Lemma length_substring (n m : nat) (s : string) :
  (n + m <= String.length s)%nat -> String.length (substring n m s) = m.
Proof.
  revert n m. induction s as [|c s IH]; intros n m H; simpl in H.
  - assert (n = 0%nat) by lia. assert (m = 0%nat) by lia. subst. reflexivity.
  - destruct n as [|n]; simpl.
    + destruct m as [|m]; [reflexivity|]. simpl. f_equal. apply (IH 0%nat). lia.
    + apply IH. lia.
Qed.

Lemma substring_shift (n m : nat) (s t : string) :
  substring (String.length s + n) m (s ++ t) = substring n m t.
Proof. induction s as [|c s IH]; simpl; [reflexivity | exact IH]. Qed.

(** A str longer than eight characters is its first four characters, a
    middle, and its last four. *)
Lemma token_parts (s : string) :
  (8 < String.length s)%nat ->
  s = str_take 4 s ++ substring 4 (String.length s - 8) s ++ str_last 4 s
  /\ String.length (str_take 4 s) = 4%nat
  /\ String.length (str_last 4 s) = 4%nat.
Proof.
  intro Hlen. unfold str_take, str_last.
  split; [|split; apply length_substring; lia].
  remember (substring 0 4 s) as first eqn:Hfirst.
  remember (substring 4 (String.length s - 4) s) as rest eqn:Hrest.
  assert (Hs : s = first ++ rest) by (subst; apply substring_split; lia).
  assert (H4 : String.length first = 4%nat) by (subst; apply length_substring; lia).
  assert (Hr : String.length rest = (String.length s - 4)%nat)
    by (subst rest; apply length_substring; lia).
  pose proof (substring_shift 0 (String.length s - 8) first rest) as Emid.
  pose proof (substring_shift (String.length s - 8) 4 first rest) as Elast.
  rewrite <- Hs, H4 in Emid, Elast.
  replace (4 + (String.length s - 8))%nat with (String.length s - 4)%nat
    in Elast by lia.
  cbn [Nat.add] in Emid. rewrite Emid, Elast.
  rewrite Hs at 1. f_equal.
  rewrite (substring_split (String.length s - 8) rest) at 1 by lia.
  do 2 f_equal. lia.
Qed.

Lemma tool_name_of_tools (name : string) : tool_name_of ("/tools/" ++ name) = name.
Proof.
  unfold tool_name_of. simpl. rewrite Nat.sub_0_r. apply substring_all.
Qed.

(* ===================================================================== *)
(** ** Running the tools *)

Lemma in_2xx_iff (r : http_response) :
  in_2xx r = true <-> (200 <= status_code r < 300)%Z.
Proof. unfold in_2xx. rewrite andb_true_iff, Z.leb_le, Z.ltb_lt. tauto. Qed.

Lemma returns_run (c : M exn value) (w : world) :
  returns c w =
  (match fst (c w) with
   | inl e => inl e
   | inr v => inr (Some (Value v))
   end, snd (c w)).
Proof. unfold returns, bind, ret. destruct (c w) as [[e|v] w']; reflexivity. Qed.

(** [list_projects] reaches the API through [run_vercel_command(["ls"])],
    which does what the other tools do inline. *)
Lemma run_vercel_command_ls (w : world) :
  run_vercel_command (VList [VStr "ls"]) w = try_get [Lit "/v9/projects"] [] w.
Proof. reflexivity. Qed.

(** Every tool behind the token guard prints one line, then either answers
    that no token is configured or does one [try_get]. *)
Lemma guarded_tool (f : function) (args : list value) :
  requires_credential f = true ->
  exists line endpoint query, forall w : world,
    apply f args w =
    if truthy (VERCEL_TOKEN w)
    then returns (try_get endpoint query) (stamped line w)
    else returns token_not_configured (stamped line w).
Proof.
  destruct f; try discriminate; intros _.
  - exists (tool_call_line "list_projects"), [Lit "/v9/projects"], []. intro w.
    unfold apply, list_projects, returns, bind; cbn.
    destruct (truthy (VERCEL_TOKEN w)); reflexivity.
  - eexists (fun t => [Lit "Tool call: list_deployments for project_id: ";
                       fmt (nth 0 args VNone); Lit " at "; Lit (str_datetime t)]),
            _, _. intro w.
    unfold apply, list_deployments, returns, bind; cbn.
    destruct (truthy (VERCEL_TOKEN w)); reflexivity.
  - eexists (tool_call_line "get_project_info"), _, _. intro w.
    unfold apply, get_project_info, returns, bind; cbn.
    destruct (truthy (VERCEL_TOKEN w)); reflexivity.
  - eexists (tool_call_line "list_project_domains"), _, _. intro w.
    unfold apply, list_project_domains, returns, bind; cbn.
    destruct (truthy (VERCEL_TOKEN w)); reflexivity.
  - eexists (tool_call_line "list_environment_variables"), _, _. intro w.
    unfold apply, list_environment_variables, returns, bind; cbn.
    destruct (truthy (VERCEL_TOKEN w)); reflexivity.
  - eexists (tool_call_line "get_user_info"), _, _. intro w.
    unfold apply, get_user_info, returns, bind; cbn.
    destruct (truthy (VERCEL_TOKEN w)); reflexivity.
  - eexists (tool_call_line "list_deployment_aliases"), _, _. intro w.
    unfold apply, list_deployment_aliases, returns, bind; cbn.
    destruct (truthy (VERCEL_TOKEN w)); reflexivity.
Qed.

(** [try_get] sends one request and always returns an envelope, decided by
    the answer to that request; it leaves [VERCEL_TOKEN] alone. *)
Ltac run_try_get :=
  unfold outcome, after, try_get, try_except, bind, api_headers, requests_get,
    process_response, envelope_for, in_2xx, get_request; cbn;
  destruct (upstream _ _ _) as [e|r]; cbn; [reflexivity|];
  destruct (_ && _); cbn; [|reflexivity];
  unfold response_json, lift, bind; destruct (json r); reflexivity.

Lemma try_get_outcome (endpoint : fstr) (query : list (string * value)) (w : world) :
  outcome (try_get endpoint query) w =
  inr (envelope_for (upstream w (length (sent w)) (get_request w endpoint query))
                    (isoformat (clock w (clock_reads w)))).
Proof. run_try_get. Qed.

Lemma try_get_sent (endpoint : fstr) (query : list (string * value)) (w : world) :
  sent (after (try_get endpoint query) w)
  = (sent w ++ [get_request w endpoint query])%list.
Proof. run_try_get. Qed.

Lemma try_get_token (endpoint : fstr) (query : list (string * value)) (w : world) :
  VERCEL_TOKEN (after (try_get endpoint query) w) = VERCEL_TOKEN w.
Proof. run_try_get. Qed.

Lemma envelope_for_fields (answer : pyerr + http_response) (ts : string) :
  exists entries,
    envelope_for answer ts = VDict entries
    /\ dict_get "timestamp" entries = Some (VStr ts)
    /\ ((dict_get "status" entries = Some (VStr "success")
         /\ exists data, dict_get "data" entries = Some data)
        \/ (dict_get "status" entries = Some (VStr "error")
            /\ dict_get "data" entries = None)).
Proof.
  unfold envelope_for. destruct answer as [e|r].
  - eexists. split; [reflexivity|]. split; [reflexivity|]. right. now split.
  - destruct (in_2xx r).
    + destruct (json r) as [e|data].
      * eexists. split; [reflexivity|]. split; [reflexivity|]. right. now split.
      * eexists. split; [reflexivity|]. split; [reflexivity|]. left.
        split; [reflexivity | now exists data].
    + eexists. split; [reflexivity|]. split; [reflexivity|]. right. now split.
Qed.

(** A credential-requiring tool called with a truthy token sends one
    request, and its Authorization header carries that token. *)
Lemma tool_sends_token (f : function) (args : list value) (w : world) :
  requires_credential f = true ->
  truthy (VERCEL_TOKEN w) = true ->
  exists req : http_get,
    sent (after (apply f args) w) = (sent w ++ [req])%list
    /\ dict_get "Authorization" (headers req)
       = Some [Lit "Bearer "; fmt (VERCEL_TOKEN w)].
Proof.
  intros Hf Htruthy.
  destruct (guarded_tool f args Hf) as (line & endpoint & query & Hrun).
  unfold after. rewrite Hrun, Htruthy, returns_run. cbn [snd].
  fold (after (try_get endpoint query) (stamped line w)).
  rewrite try_get_sent.
  exists (get_request (stamped line w) endpoint query). split; reflexivity.
Qed.

(** [set_vercel_token] and [check_server_status] send nothing, whatever
    their arguments and however they end. *)
Lemma tool_without_request (f : function) (args : list value) (w : world) :
  is_tool f = true ->
  requires_credential f = false ->
  sent (after (apply f args) w) = sent w.
Proof.
  intros Htool Hcred.
  destruct f; try discriminate Hcred; try (vm_compute in Htool; discriminate Htool).
  - unfold after, apply, returns, set_vercel_token, bind.
    cbn [print_tool_call assign_token fst snd lift].
    destruct (masked_token (nth 0 args VNone)); reflexivity.
  - unfold after, apply, returns, check_server_status, print_tool_call,
      bind, try_except, subprocess_run, now, print, read_token, getpid, ret.
    cbn [fst snd vercel_cli with_printed with_clock_reads].
    destruct (vercel_cli w); reflexivity.
Qed.

(** ** [set_vercel_token] on a str *)

Lemma masked_token_str (s : string) :
  masked_token (VStr s) =
  inr (if (8 <? String.length s)%nat
       then str_take 4 s ++ "****" ++ str_last 4 s else "****").
Proof.
  unfold masked_token. cbn [py_len]. destruct (8 <? String.length s)%nat; reflexivity.
Qed.

Lemma set_vercel_token_run (s : string) (w : world) :
  set_vercel_token (VStr s) w =
  (inr (VDict [("status", VStr "success");
               ("message", VStr "Vercel token updated successfully");
               ("timestamp", VStr (isoformat (clock w (S (clock_reads w)))))]),
   with_clock_reads (S (S (clock_reads w)))
     (printing [Lit "Vercel token updated: ";
                Lit (if (8 <? String.length s)%nat
                     then str_take 4 s ++ "****" ++ str_last 4 s else "****")]
        (with_token (VStr s) (stamped (tool_call_line "set_vercel_token") w)))).
Proof.
  unfold set_vercel_token, bind. cbn [print_tool_call assign_token].
  unfold lift. rewrite masked_token_str. reflexivity.
Qed.

Lemma set_vercel_token_token (s : string) (w : world) :
  VERCEL_TOKEN (after (set_vercel_token (VStr s)) w) = VStr s.
Proof. unfold after. now rewrite set_vercel_token_run. Qed.

Lemma set_vercel_token_sent (s : string) (w : world) :
  sent (after (set_vercel_token (VStr s)) w) = sent w.
Proof. unfold after. now rewrite set_vercel_token_run. Qed.

Lemma set_vercel_token_printed (s : string) (w : world) :
  printed (after (set_vercel_token (VStr s)) w)
  = (printed w
     ++ [tool_call_line "set_vercel_token" (clock w (clock_reads w));
         [Lit "Vercel token updated: ";
          Lit (if (8 <? String.length s)%nat
               then str_take 4 s ++ "****" ++ str_last 4 s else "****")]])%list.
Proof.
  unfold after. rewrite set_vercel_token_run. unfold printing, stamped.
  cbn [snd printed with_printed with_token with_clock_reads].
  now rewrite <- app_assoc.
Qed.

(** The masked form always shows a star; the fixed message has none. *)
Lemma masked_not_in_message (s : string) :
  exists masked,
    masked_token (VStr s) = inr masked
    /\ contains masked "Vercel token updated successfully" = false.
Proof.
  rewrite masked_token_str. eexists. split; [reflexivity|].
  destruct (contains _ _) eqn:H; [|reflexivity].
  apply (contains_has_char "*") in H; [discriminate H|].
  destruct (8 <? String.length s)%nat; [|reflexivity].
  rewrite !has_char_app. simpl. apply orb_true_r.
Qed.

(* ===================================================================== *)
(** ** Binding keywords and running [do_POST] *)

Lemma globals_function (f : function) (w : world) :
  dict_get (function_name f) (module_globals w) = Some (Function f).
Proof. destruct f; reflexivity. Qed.

Lemma bind_args_missing (sig : list (string * option value))
    (kwargs : list (string * value)) (p : string) :
  In (p, None) sig -> dict_get p kwargs = None ->
  exists why, bind_args sig kwargs = inl why.
Proof.
  intros Hsig Hget. unfold bind_args.
  destruct (unexpected_keyword sig kwargs) as [k|]; [now eexists|].
  assert (Hin : In p (missing_arguments sig kwargs)).
  { unfold missing_arguments, parameter_names.
    apply (in_map fst _ (p, None)). apply filter_In. split; [exact Hsig|].
    simpl. now rewrite Hget. }
  destruct (missing_arguments sig kwargs); [contradiction | now eexists].
Qed.

Lemma bind_args_unexpected (sig : list (string * option value))
    (kwargs : list (string * value)) (key : string) :
  In key (dict_keys kwargs) -> ~ In key (parameter_names sig) ->
  exists k, bind_args sig kwargs = inl (UnexpectedKeyword k)
            /\ In k (dict_keys kwargs) /\ ~ In k (parameter_names sig).
Proof.
  intros Hin Hnot. unfold bind_args, unexpected_keyword.
  destruct (find _ _) as [k|] eqn:Hfind.
  - apply find_some in Hfind as [Hk Hneg]. exists k. repeat split; [exact Hk|].
    apply negb_true_iff in Hneg. intro H. apply mem_str_In in H. congruence.
  - exfalso. apply (find_none _ _ Hfind) in Hin.
    apply negb_false_iff, mem_str_In in Hin. contradiction.
Qed.

(** [f( **kwargs )] that fails to bind raises before [f] runs. *)
Lemma call_unbound (f : function) (kwargs : list (string * value))
    (why : bind_failure) (w : world) :
  bind_args (signature_of f) kwargs = inl why ->
  call (Function f) (VDict kwargs) w = (inl (CallTypeError (function_name f) why), w).
Proof. intro H. unfold call. now rewrite H. Qed.

(** [do_POST] on [/tools/<name>] once the body is read: an exception of
    [json.loads] that is no [JSONDecodeError] leaves the handler; else 400
    for a body that is not JSON, else 404 unless [name] is bound to a
    callable, else the call. *)
Lemma do_POST_run (req : request) (name post_data : string) (w : world) :
  path req = "/tools/" ++ name ->
  read_body req = inr post_data ->
  do_POST req w =
  match params_of req post_data with
  | inl e => (inl e, announced name w)
  | inr None =>
      (inr (Some (error_response 400 [Lit "Invalid JSON in request body"])),
       announced name w)
  | inr (Some params) =>
      match dict_get name (module_globals w) with
      | Some f =>
          if callable f then call_tool name f params (announced name w)
          else (inr (Some (error_response 404
                             [Lit "Tool '"; Lit name; Lit "' not found"])),
                announced name w)
      | None =>
          (inr (Some (error_response 404
                        [Lit "Tool '"; Lit name; Lit "' not found"])),
           announced name w)
      end
  end.
Proof.
  destruct req as [p b j]. cbn [path read_body]. intros -> ->.
  unfold do_POST. cbn [path read_body].
  rewrite prefix_app, tool_name_of_tools.
  unfold bind at 1. cbn [print]. unfold bind at 1. cbn [print].
  unfold bind at 1. cbn [lift].
  fold (printing [Lit "Received POST request: "; Lit ("/tools/" ++ name)] w).
  fold (printing [Lit "Calling tool: "; Lit name]
          (printing [Lit "Received POST request: "; Lit ("/tools/" ++ name)] w)).
  fold (announced name w).
  unfold bind at 1. unfold lift at 1.
  destruct (params_of _ post_data) as [e|[params|]]; [reflexivity| |reflexivity].
  unfold bind at 1, globals_get.
  change (module_globals (announced name w)) with (module_globals w).
  destruct (dict_get name (module_globals w)) as [f|]; [|reflexivity].
  destruct f; try reflexivity.
  cbn [truthy_obj callable]. rewrite andb_false_r. reflexivity.
Qed.

(** [do_POST] on [/tools/<name>] when reading the body raises: the
    exception leaves the handler after the two lines are printed. *)
Lemma do_POST_unread (req : request) (name : string) (e : pyerr) (w : world) :
  path req = "/tools/" ++ name ->
  read_body req = inl e ->
  do_POST req w = (inl e, announced name w).
Proof.
  destruct req as [p b j]. cbn [path read_body]. intros -> ->.
  unfold do_POST. cbn [path read_body].
  rewrite prefix_app, tool_name_of_tools. reflexivity.
Qed.

(** What [call_tool] answers, by the way the call ends. *)
Lemma call_tool_run (name : string) (f : pyobj) (params : value) (w : world) :
  call_tool name f params w =
  match call f params (printing [Lit "Calling tool: "; Lit name;
                                 Lit " with params: "; fmt params] w) with
  | (inr (Some (Value v)), w') =>
      (inr (Some (json_response v)),
       printing [Dumps v] (printing [Lit "Sending JSON response:"] w'))
  | (inr (Some (Object type_of)), w') =>
      let e := Raised (TypeError ("Object of type " ++ type_of
                                  ++ " is not JSON serializable")) in
      (inr (Some (error_response 500 [Lit "Error calling tool: "; fmt_exn e])),
       printing [Lit "Error calling tool "; Lit name; Lit ": "; fmt_exn e] w')
  | (inr None, w') => (inr None, w')
  | (inl e, w') =>
      (inr (Some (error_response 500 [Lit "Error calling tool: "; fmt_exn e])),
       printing [Lit "Error calling tool "; Lit name; Lit ": "; fmt_exn e] w')
  end.
Proof.
  unfold call_tool, try_except, bind. cbn [print].
  fold (printing [Lit "Calling tool: "; Lit name; Lit " with params: "; fmt params] w).
  destruct (call f params _) as [[e|[[v|t]|]] w']; reflexivity.
Qed.

(* ===================================================================== *)
(** ** C1: the envelope of a completed outbound call *)

(** C1, as amended. A known tool that sent a request [req] and got the
    response [r] returns: the success envelope with the parsed
    body when the status code is in [200,300) and [response.json()] parses
    the body; the envelope [{status: error, message: "Error: ...",
    timestamp}] when the status code is in [200,300) and [response.json()]
    raises; and otherwise the error envelope whose message ends in the
    status code and whose [error] is the body text. *)
Theorem envelope_of_completed_call (f : function) (args : list value) (w : world)
    (req : http_get) (r : http_response) :
  is_tool f = true ->
  sent (after (apply f args) w) = (sent w ++ [req])%list ->
  upstream w (length (sent w)) req = inr r ->
  exists ts : string,
    (forall data, (200 <= status_code r < 300)%Z -> json r = inr data ->
       outcome (apply f args) w =
       inr (Some (Value (VDict [("status", VStr "success"); ("data", data);
                                ("timestamp", VStr ts)]))))
    /\ (forall e, (200 <= status_code r < 300)%Z -> json r = inl e ->
       outcome (apply f args) w =
       inr (Some (Value (VDict [("status", VStr "error");
                                ("message", VStr ("Error: " ++ err_str e));
                                ("timestamp", VStr ts)]))))
    /\ (~ (200 <= status_code r < 300)%Z ->
       outcome (apply f args) w =
       inr (Some (Value (VDict [("status", VStr "error");
                                ("message", VStr ("API request failed with status code "
                                                  ++ str_int (status_code r)));
                                ("error", VStr (text r));
                                ("timestamp", VStr ts)])))
       /\ contains (str_int (status_code r))
                   ("API request failed with status code "
                    ++ str_int (status_code r)) = true).
Proof.
  intros Htool Hsent Hup.
  destruct (requires_credential f) eqn:Hf.
  2: { rewrite (tool_without_request f args w Htool Hf) in Hsent.
       exfalso. exact (not_self_snoc _ _ Hsent). }
  destruct (guarded_tool f args Hf) as (line & endpoint & query & Hrun).
  unfold outcome, after in *. rewrite Hrun in *. clear Hrun.
  destruct (truthy (VERCEL_TOKEN w)); rewrite returns_run in *; cbn [fst snd] in *.
  2: { exfalso. exact (not_self_snoc _ _ Hsent). }
  fold (after (try_get endpoint query) (stamped line w)) in Hsent.
  fold (outcome (try_get endpoint query) (stamped line w)).
  rewrite try_get_sent in Hsent. apply app_inj_tail in Hsent as [_ Hreq].
  rewrite try_get_outcome. cbn [stamped sent with_printed with_clock_reads upstream].
  rewrite Hreq, Hup.
  eexists. unfold envelope_for.
  pose proof (in_2xx_iff r) as C.
  split; [|split].
  - intros data Hcode Hjson. apply C in Hcode. now rewrite Hcode, Hjson.
  - intros e Hcode Hjson. apply C in Hcode. now rewrite Hcode, Hjson.
  - intros Hcode. split; [|apply contains_suffix].
    destruct (in_2xx r); [|reflexivity]. exfalso. tauto.
Qed.

(** [list_projects] with a token, against an upstream that answers 404 with
    the body [not found]. *)
Lemma envelope_of_completed_call_witness :
  exists ts : string,
    outcome (apply fn_list_projects []) (example_world (VStr "tok") not_found_404)
    = inr (Some (Value (VDict [("status", VStr "error");
                               ("message", VStr "API request failed with status code 404");
                               ("error", VStr "not found");
                               ("timestamp", VStr ts)])))
    /\ contains "404" "API request failed with status code 404" = true.
Proof.
  destruct (envelope_of_completed_call fn_list_projects []
              (example_world (VStr "tok") not_found_404)
              (get_request (example_world (VStr "tok") not_found_404)
                           [Lit "/v9/projects"] [])
              (HttpResponse 404 "not found" (inl no_json))
              eq_refl eq_refl eq_refl) as (ts & _ & _ & H).
  exists ts. apply H. simpl. lia.
Defined.

(** C1 as stated fails: [get_user_info] sends its request, the upstream
    answers 204 with an empty body, a status code in [200,300), and the
    envelope is an error envelope, because [response.json()] raises. *)
Lemma completed_2xx_call_without_json :
  sent (after (apply fn_get_user_info []) (example_world (VStr "tok") no_content_204))
  = [get_request (example_world (VStr "tok") no_content_204) [Lit "/v2/user"] []]
  /\ upstream (example_world (VStr "tok") no_content_204) 0
       (get_request (example_world (VStr "tok") no_content_204) [Lit "/v2/user"] [])
     = inr (HttpResponse 204 "" (inl no_json))
  /\ outcome (apply fn_get_user_info []) (example_world (VStr "tok") no_content_204)
     = inr (Some (Value (VDict
         [("status", VStr "error");
          ("message", VStr "Error: Expecting value: line 1 column 1 (char 0)");
          ("timestamp", VStr "2025-03-14T09:26:01")]))).
Proof. repeat split. Qed.

(* ===================================================================== *)
(** ** C2: the token guard *)

(** C2. With [VERCEL_TOKEN] the empty string, each of the seven
    credential-requiring tools, on any arguments, returns an envelope whose
    status is [error] and sends nothing. *)
Theorem credential_guard (f : function) (args : list value) (w : world) :
  requires_credential f = true ->
  VERCEL_TOKEN w = VStr "" ->
  exists envelope : value,
    outcome (apply f args) w = inr (Some (Value envelope))
    /\ field "status" envelope = Some (VStr "error")
    /\ sent (after (apply f args) w) = sent w.
Proof.
  intros Hf Htoken.
  destruct (guarded_tool f args Hf) as (line & endpoint & query & Hrun).
  unfold outcome, after. rewrite Hrun, Htoken. cbn.
  eexists. repeat split.
Qed.

Lemma credential_guard_witness :
  exists envelope : value,
    outcome (apply fn_list_deployments [VStr "prj_1"; VInt 5])
            (example_world (VStr "") ok_200)
    = inr (Some (Value envelope))
    /\ field "status" envelope = Some (VStr "error")
    /\ sent (after (apply fn_list_deployments [VStr "prj_1"; VInt 5])
                   (example_world (VStr "") ok_200)) = [].
Proof.
  exact (credential_guard fn_list_deployments [VStr "prj_1"; VInt 5]
           (example_world (VStr "") ok_200) eq_refl eq_refl).
Defined.

(** The seven tools of C2 are the tools that call the API; the other two
    known tools are [set_vercel_token] and [check_server_status]. *)
Lemma credential_tools :
  map function_name
      (filter requires_credential
              [fn_get_registered_tools; fn_run_vercel_command; fn_list_projects;
               fn_list_deployments; fn_get_project_info; fn_set_vercel_token;
               fn_check_server_status; fn_list_project_domains;
               fn_list_environment_variables; fn_get_user_info;
               fn_list_deployment_aliases; fn_check_port_in_use; fn_main])
  = ["list_projects"; "list_deployments"; "get_project_info";
     "list_project_domains"; "list_environment_variables"; "get_user_info";
     "list_deployment_aliases"].
Proof. reflexivity. Qed.

(* ===================================================================== *)
(** ** C3: names that resolve to nothing callable *)

(** C3, as amended. For a POST to [/tools/<name>] whose [name] is not
    bound to a callable in the module namespace: when the body is read and
    is empty or [json.loads] returns a value, the answer is 404; when
    [json.loads] raises [JSONDecodeError], the answer is 400; when reading
    the body raises, or [json.loads] raises anything else, that exception
    leaves [do_POST] and no response is written. In every case nothing is
    sent upstream and [VERCEL_TOKEN] is unchanged. *)
Theorem unbound_name_404 (name : string) (req : request) (w : world) :
  path req = "/tools/" ++ name ->
  (forall o, dict_get name (module_globals w) = Some o -> callable o = false) ->
  match read_body req with
  | inl e => outcome (do_POST req) w = inl e
  | inr post_data =>
      match params_of req post_data with
      | inr (Some _) => response_code (outcome (do_POST req) w) = Some 404%Z
      | inr None => response_code (outcome (do_POST req) w) = Some 400%Z
      | inl e => outcome (do_POST req) w = inl e
      end
  end
  /\ sent (after (do_POST req) w) = sent w
  /\ VERCEL_TOKEN (after (do_POST req) w) = VERCEL_TOKEN w.
Proof.
  intros Hpath Hunbound. unfold outcome, after.
  destruct (read_body req) as [e|post_data] eqn:Hbody.
  - rewrite (do_POST_unread req _ _ w Hpath Hbody). now conjuncts.
  - rewrite (do_POST_run req _ _ w Hpath Hbody).
    destruct (params_of req post_data) as [e|[params|]]; [now conjuncts| |now conjuncts].
    destruct (dict_get name (module_globals w)) as [o|] eqn:Hget.
    + rewrite (Hunbound o eq_refl). now conjuncts.
    + now conjuncts.
Qed.

Lemma unbound_name_404_witness :
  response_code
    (outcome (do_POST (Request "/tools/does_not_exist" (inr body_with_x)
                               (inr (Some (VDict [("x", VInt 1)])))))
             (example_world (VStr "tok") ok_200))
  = Some 404%Z.
Proof.
  refine (proj1 (unbound_name_404 "does_not_exist"
                   (Request "/tools/does_not_exist" (inr body_with_x)
                            (inr (Some (VDict [("x", VInt 1)]))))
                   (example_world (VStr "tok") ok_200)
                   eq_refl _)).
  intros o H. discriminate H.
Defined.

(** C3 as stated fails: [does_not_exist] is no registered tool and is bound
    to nothing, the body is not valid JSON, and the answer is 400. *)
Lemma unknown_tool_with_bad_body_400 :
  mem_str "does_not_exist" known_tools = false
  /\ dict_get "does_not_exist" (module_globals (example_world (VStr "tok") ok_200))
     = None
  /\ response_code
       (outcome (do_POST (Request "/tools/does_not_exist" (inr body_not_json) (inr None)))
                (example_world (VStr "tok") ok_200))
     = Some 400%Z.
Proof. repeat split. Qed.

(* ===================================================================== *)
(** ** C4: what the tools return *)

(** The known tools other than [set_vercel_token] never raise; neither
    does [set_vercel_token] on a str. *)
Lemma tools_return (f : function) (args : list value) (w : world) :
  is_tool f = true ->
  f <> fn_set_vercel_token ->
  exists envelope, outcome (apply f args) w = inr (Some (Value envelope)).
Proof.
  intros Htool Hne.
  destruct (requires_credential f) eqn:Hcred.
  - destruct (guarded_tool f args Hcred) as (line & endpoint & query & Hrun).
    unfold outcome. rewrite Hrun.
    destruct (truthy (VERCEL_TOKEN w)); [|now eexists].
    rewrite returns_run. cbn [fst].
    fold (outcome (try_get endpoint query) (stamped line w)).
    rewrite try_get_outcome. now eexists.
  - destruct f; try discriminate Hcred;
      try (vm_compute in Htool; discriminate Htool); [now contradiction Hne|].
    unfold outcome, apply, returns, check_server_status, print_tool_call,
      bind, try_except, subprocess_run, now, print, read_token, getpid, ret.
    cbn [fst snd vercel_cli with_printed with_clock_reads].
    destruct (vercel_cli w); now eexists.
Qed.

(** C4, as amended. What a known tool returns is a dict with a [timestamp]
    str. Its [status] is [success] or [error], except for
    [check_server_status], whose [status] is [online]. A success envelope
    of a tool that calls the API has a [data] field; the success envelope
    of [set_vercel_token] has the fixed message and no [data] field. *)
Theorem tool_result_envelope (f : function) (args : list value) (w : world)
    (r : option returned) :
  is_tool f = true ->
  outcome (apply f args) w = inr r ->
  exists (entries : list (string * value)) (ts : string),
    r = Some (Value (VDict entries))
    /\ dict_get "timestamp" entries = Some (VStr ts)
    /\ (f = fn_check_server_status ->
        dict_get "status" entries = Some (VStr "online"))
    /\ (f <> fn_check_server_status ->
        dict_get "status" entries = Some (VStr "success")
        \/ dict_get "status" entries = Some (VStr "error"))
    /\ (f = fn_set_vercel_token ->
        dict_get "status" entries = Some (VStr "success")
        /\ dict_get "data" entries = None
        /\ dict_get "message" entries
           = Some (VStr "Vercel token updated successfully"))
    /\ (requires_credential f = true ->
        dict_get "status" entries = Some (VStr "success") ->
        exists data, dict_get "data" entries = Some data).
Proof.
  intros Htool Hout.
  destruct (requires_credential f) eqn:Hcred.
  - destruct (guarded_tool f args Hcred) as (line & endpoint & query & Hrun).
    unfold outcome in Hout. rewrite Hrun in Hout.
    destruct (truthy (VERCEL_TOKEN w)).
    + rewrite returns_run in Hout. cbn [fst] in Hout.
      fold (outcome (try_get endpoint query) (stamped line w)) in Hout.
      rewrite try_get_outcome in Hout. injection Hout as <-.
      match goal with
      | |- context [envelope_for ?a ?ts] =>
          destruct (envelope_for_fields a ts) as (entries & -> & Hts & Hstatus)
      end.
      exists entries. eexists. split; [reflexivity|]. split; [exact Hts|].
      conjuncts.
      * intros ->. discriminate Hcred.
      * intros _. tauto.
      * intros ->. discriminate Hcred.
      * intros _ Hs. destruct Hstatus as [[_ Hd]|[He _]]; [exact Hd | congruence].
    + cbn in Hout. injection Hout as <-.
      do 2 eexists. split; [reflexivity|]. split; [reflexivity|].
      conjuncts; try (intros ->; discriminate Hcred).
      * intros _. now right.
      * intros _ Hs. discriminate Hs.
  - destruct f; try discriminate Hcred; try (vm_compute in Htool; discriminate Htool).
    + (* set_vercel_token *)
      unfold outcome, apply, returns, set_vercel_token, bind in Hout.
      cbn [print_tool_call assign_token fst snd lift] in Hout.
      destruct (masked_token (nth 0 args VNone)) as [e|masked];
        cbn in Hout; [discriminate Hout|].
      injection Hout as <-.
      do 2 eexists. split; [reflexivity|]. split; [reflexivity|].
      conjuncts; try discriminate; intros _; [now left | now conjuncts].
    + (* check_server_status *)
      unfold outcome, apply, returns, check_server_status, print_tool_call,
        bind, try_except, subprocess_run, now, print, read_token, getpid, ret
        in Hout.
      cbn [fst snd vercel_cli with_printed with_clock_reads] in Hout.
      destruct (vercel_cli w) as [e|result]; cbn [fst snd] in Hout;
        injection Hout as <-;
        do 2 eexists; (split; [reflexivity|]); (split; [reflexivity|]);
        conjuncts; try discriminate;
        try (intros _; reflexivity); intros H; now contradiction H.
Qed.

Lemma tool_result_envelope_witness :
  exists (entries : list (string * value)) (ts : string),
    outcome (apply fn_set_vercel_token [VStr "abcd1234efgh"])
            (example_world (VStr "") ok_200)
    = inr (Some (Value (VDict entries)))
    /\ dict_get "timestamp" entries = Some (VStr ts)
    /\ dict_get "status" entries = Some (VStr "success")
    /\ dict_get "data" entries = None.
Proof.
  destruct (tool_result_envelope fn_set_vercel_token [VStr "abcd1234efgh"]
              (example_world (VStr "") ok_200) _ eq_refl eq_refl)
    as (entries & ts & Hr & Hts & _ & _ & Hset & _).
  exists entries, ts. injection Hr as <-.
  destruct (Hset eq_refl) as (Hstatus & Hdata & _). repeat split; assumption.
Defined.

(** C4 as stated fails: [check_server_status] returns normally, and the
    status of what it returns is [online], neither [success] nor [error]. *)
Lemma check_server_status_is_online :
  outcome (apply fn_check_server_status []) (example_world (VStr "tok") ok_200)
  = inr (Some (Value (VDict
      [("status", VStr "online");
       ("server_name", VStr "MCP Vercel CLI Server");
       ("version", VStr "1.0.0");
       ("vercel_cli_installed", VBool false);
       ("vercel_cli_version", VStr "Not installed");
       ("vercel_token_configured", VBool true);
       ("pid", VInt 4242);
       ("timestamp", VStr "2025-03-14T09:26:01")])))
  /\ mem_str "online" ["success"; "error"] = false.
Proof. split; reflexivity. Qed.

(* ===================================================================== *)
(** ** C5: [set_vercel_token] *)

(** C5, as amended. For every str [token], [set_vercel_token] returns the
    success envelope with the fixed message and makes [token] the value of
    [VERCEL_TOKEN]. It prints two lines, the second being the masked form:
    for a token longer than eight characters its first four characters,
    [****], and its last four; otherwise [****] alone. The masked form is
    printed, not returned. If [token] is not empty, the next call of a
    credential-requiring tool sends one request whose Authorization header
    is [Bearer <token>]. *)
Theorem set_vercel_token_effect (token : string) (w : world) :
  (exists ts : string,
     outcome (set_vercel_token (VStr token)) w =
     inr (VDict [("status", VStr "success");
                 ("message", VStr "Vercel token updated successfully");
                 ("timestamp", VStr ts)]))
  /\ VERCEL_TOKEN (after (set_vercel_token (VStr token)) w) = VStr token
  /\ (exists (t : datetime) (masked : string),
        printed (after (set_vercel_token (VStr token)) w)
        = (printed w ++ [tool_call_line "set_vercel_token" t;
                         [Lit "Vercel token updated: "; Lit masked]])%list
        /\ ((8 < String.length token)%nat ->
            exists first middle last : string,
              token = first ++ middle ++ last
              /\ String.length first = 4%nat /\ String.length last = 4%nat
              /\ masked = first ++ "****" ++ last)
        /\ ((String.length token <= 8)%nat -> masked = "****"))
  /\ (token <> "" ->
      forall (f : function) (args : list value),
        requires_credential f = true ->
        exists req : http_get,
          sent (after (apply f args) (after (set_vercel_token (VStr token)) w))
          = (sent w ++ [req])%list
          /\ dict_get "Authorization" (headers req)
             = Some [Lit "Bearer "; Lit token]).
Proof.
  split; [|split; [|split]].
  - unfold outcome. rewrite set_vercel_token_run. now eexists.
  - apply set_vercel_token_token.
  - exists (clock w (clock_reads w)),
      (if (8 <? String.length token)%nat
       then str_take 4 token ++ "****" ++ str_last 4 token else "****").
    split; [apply set_vercel_token_printed | split].
    + intro Hlen. apply Nat.ltb_lt in Hlen as Hlt. rewrite Hlt.
      destruct (token_parts token Hlen) as (Hsplit & H4 & H4').
      now exists (str_take 4 token),
             (substring 4 (String.length token - 8) token), (str_last 4 token).
    + intro Hlen. apply Nat.ltb_ge in Hlen. now rewrite Hlen.
  - intros Hne f args Hf.
    destruct (tool_sends_token f args (after (set_vercel_token (VStr token)) w) Hf)
      as (req & Hsent & Hauth).
    + rewrite set_vercel_token_token. destruct token; [congruence | reflexivity].
    + exists req. rewrite Hsent, Hauth, set_vercel_token_sent, set_vercel_token_token.
      now split.
Qed.

(** After [set_vercel_token("abcd1234efgh")], [get_user_info] sends
    [Bearer abcd1234efgh]. *)
Lemma set_vercel_token_effect_witness :
  exists req : http_get,
    sent (after (apply fn_get_user_info [])
            (after (set_vercel_token (VStr "abcd1234efgh"))
                   (example_world (VStr "") ok_200)))
    = [req]
    /\ dict_get "Authorization" (headers req)
       = Some [Lit "Bearer "; Lit "abcd1234efgh"].
Proof.
  destruct (set_vercel_token_effect "abcd1234efgh" (example_world (VStr "") ok_200))
    as (_ & _ & _ & Hnext).
  apply (Hnext ltac:(discriminate) fn_get_user_info [] eq_refl).
Defined.

(** What is printed for the token of the specification. *)
Lemma masked_token_example :
  masked_token (VStr "abcd1234efgh") = inr "abcd****efgh"
  /\ printed (after (set_vercel_token (VStr "abcd1234efgh"))
                    (example_world (VStr "") ok_200))
     = [[Lit "Tool call: "; Lit "set_vercel_token"; Lit " at ";
         Lit "2025-03-14 09:26:00"];
        [Lit "Vercel token updated: "; Lit "abcd****efgh"]].
Proof. split; reflexivity. Qed.

(** C5 as stated fails: the masked form of [abcd1234efgh] is
    [abcd****efgh], and no str of the response holds it, nor any star. *)
Lemma masked_form_not_in_response :
  masked_token (VStr "abcd1234efgh") = inr "abcd****efgh"
  /\ outcome (set_vercel_token (VStr "abcd1234efgh"))
             (example_world (VStr "") ok_200)
     = inr (VDict [("status", VStr "success");
                   ("message", VStr "Vercel token updated successfully");
                   ("timestamp", VStr "2025-03-14T09:26:01")])
  /\ mentions "abcd****efgh"
       (VDict [("status", VStr "success");
               ("message", VStr "Vercel token updated successfully");
               ("timestamp", VStr "2025-03-14T09:26:01")]) = false
  /\ mentions "*"
       (VDict [("status", VStr "success");
               ("message", VStr "Vercel token updated successfully");
               ("timestamp", VStr "2025-03-14T09:26:01")]) = false.
Proof. repeat split. Qed.

(** Over HTTP the handler prints the parameters of every call before it
    makes it, the token of [set_vercel_token] among them. *)
Lemma do_POST_prints_params (token post_data : string) (w : world) :
  is_empty post_data = false ->
  In [Lit "Calling tool: "; Lit "set_vercel_token"; Lit " with params: ";
      Fmt (VDict [("token", VStr token)])]
     (printed (after (do_POST (Request "/tools/set_vercel_token" (inr post_data)
                                       (inr (Some (VDict [("token", VStr token)])))))
                     w)).
Proof.
  intro Hbody. unfold after.
  rewrite (do_POST_run
             (Request "/tools/set_vercel_token" (inr post_data)
                      (inr (Some (VDict [("token", VStr token)]))))
             "set_vercel_token" post_data w eq_refl eq_refl).
  unfold params_of. cbn [json_loads]. rewrite Hbody.
  change (dict_get "set_vercel_token" (module_globals w))
    with (Some (Function fn_set_vercel_token)).
  cbn [callable]. rewrite call_tool_run.
  change (call (Function fn_set_vercel_token) (VDict [("token", VStr token)]))
    with (returns (set_vercel_token (VStr token))).
  rewrite returns_run, set_vercel_token_run. cbn [fst snd].
  unfold printing, stamped.
  cbn [printed with_printed with_token with_clock_reads].
  rewrite !in_app_iff. do 4 left. right. now left.
Qed.

(* ===================================================================== *)
(** ** C6: keywords that name no parameter *)

(** C6, as amended. For every known tool and every parameter map holding a
    key that is not one of the tool's parameter names, the call fails to
    bind: the tool does not run (nothing is sent upstream, [VERCEL_TOKEN]
    is unchanged) and the answer is HTTP 500. *)
Theorem unexpected_keyword_500 (f : function) (key : string) (req : request)
    (post_data : string) (kwargs : list (string * value)) (w : world) :
  is_tool f = true ->
  path req = "/tools/" ++ function_name f ->
  read_body req = inr post_data ->
  params_of req post_data = inr (Some (VDict kwargs)) ->
  In key (dict_keys kwargs) ->
  ~ In key (parameter_names (signature_of f)) ->
  (exists (r : response) (k : string),
     outcome (do_POST req) w = inr (Some r)
     /\ code r = 500%Z
     /\ body r = Some (ErrorBody [Lit "Error calling tool: ";
                                  StrExn (CallTypeError (function_name f)
                                                        (UnexpectedKeyword k))]))
  /\ sent (after (do_POST req) w) = sent w
  /\ VERCEL_TOKEN (after (do_POST req) w) = VERCEL_TOKEN w.
Proof.
  intros _ Hpath Hbody Hparams Hin Hnot.
  destruct (bind_args_unexpected _ _ _ Hin Hnot) as (k & Hbind & _).
  unfold outcome, after.
  rewrite (do_POST_run req _ _ w Hpath Hbody), Hparams, globals_function.
  cbn [callable]. rewrite call_tool_run, (call_unbound _ _ _ _ Hbind).
  split; [|split; reflexivity].
  eexists. exists k. repeat split.
Qed.

Lemma unexpected_keyword_500_witness :
  exists r : response,
    outcome (do_POST (Request "/tools/list_projects" (inr body_with_x)
                              (inr (Some (VDict [("x", VInt 1)])))))
            (example_world (VStr "tok") ok_200)
    = inr (Some r)
    /\ code r = 500%Z.
Proof.
  destruct (unexpected_keyword_500 fn_list_projects "x"
              (Request "/tools/list_projects" (inr body_with_x)
                       (inr (Some (VDict [("x", VInt 1)]))))
              body_with_x [("x", VInt 1)] (example_world (VStr "tok") ok_200)
              eq_refl eq_refl eq_refl eq_refl (or_introl eq_refl) (fun H => H))
    as ((r & k & Hr & Hcode & _) & _).
  exists r. split; assumption.
Defined.

(** C6 as stated fails: [list_projects] has no parameters, so the known
    keys of [{"x": 1}] are those of [{}]; the call with [{}] is answered
    200 and the call with [{"x": 1}] is answered 500. *)
Lemma unknown_key_not_ignored :
  response_code
    (outcome (do_POST (Request "/tools/list_projects" (inr body_with_x)
                               (inr (Some (VDict [("x", VInt 1)])))))
             (example_world (VStr "tok") ok_200))
  = Some 500%Z
  /\ response_code
       (outcome (do_POST (Request "/tools/list_projects" (inr "{}")
                                  (inr (Some (VDict [])))))
                (example_world (VStr "tok") ok_200))
     = Some 200%Z.
Proof. split; reflexivity. Qed.

(* ===================================================================== *)
(** ** C7: a required parameter left out *)

(** C7. For every known tool with a parameter [p] that has no default, a
    POST to [/tools/<name>] whose parameter map (the parsed JSON object, or
    the empty map of an empty body) has no key [p] is answered with HTTP
    500: the handler writes a response, no exception leaves it. *)
Theorem missing_argument_500 (f : function) (p : string) (req : request)
    (post_data : string) (kwargs : list (string * value)) (w : world) :
  is_tool f = true ->
  In (p, None) (signature_of f) ->
  path req = "/tools/" ++ function_name f ->
  read_body req = inr post_data ->
  params_of req post_data = inr (Some (VDict kwargs)) ->
  dict_get p kwargs = None ->
  exists r : response,
    outcome (do_POST req) w = inr (Some r) /\ code r = 500%Z.
Proof.
  intros _ Hsig Hpath Hbody Hparams Hmissing.
  destruct (bind_args_missing _ _ _ Hsig Hmissing) as [why Hbind].
  unfold outcome.
  rewrite (do_POST_run req _ _ w Hpath Hbody), Hparams, globals_function.
  cbn [callable]. rewrite call_tool_run, (call_unbound _ _ _ _ Hbind).
  eexists. split; reflexivity.
Qed.

Lemma missing_argument_500_witness :
  exists r : response,
    outcome (do_POST (Request "/tools/get_project_info" (inr "{}")
                              (inr (Some (VDict [])))))
            (example_world (VStr "tok") ok_200)
    = inr (Some r)
    /\ code r = 500%Z.
Proof.
  exact (missing_argument_500 fn_get_project_info "project_id"
           (Request "/tools/get_project_info" (inr "{}") (inr (Some (VDict []))))
           "{}" [] (example_world (VStr "tok") ok_200)
           eq_refl (or_introl eq_refl) eq_refl eq_refl eq_refl eq_refl).
Defined.

(** The known tools with a parameter that has no default. *)
Lemma tools_with_required_parameter :
  map (fun f => (function_name f, missing_arguments (signature_of f) []))
      (filter (fun f => is_tool f
                        && negb (Nat.eqb (length (missing_arguments (signature_of f) [])) 0))
              [fn_list_projects; fn_list_deployments; fn_get_project_info;
               fn_set_vercel_token; fn_check_server_status;
               fn_list_project_domains; fn_list_environment_variables;
               fn_get_user_info; fn_list_deployment_aliases])
  = [("get_project_info", ["project_id"]);
     ("set_vercel_token", ["token"]);
     ("list_project_domains", ["project_id"]);
     ("list_environment_variables", ["project_id"]);
     ("list_deployment_aliases", ["deployment_id"])].
Proof. reflexivity. Qed.

(* ===================================================================== *)
(** ** C8: the headers of the responses *)

(** Every response of [_send_json_response] carries both headers, as the
    headers of [_set_headers] do; a response of [_handle_error] carries
    Content-Length and no Access-Control-Allow-Origin. *)
Lemma json_response_headers (data : value) :
  dict_get "Access-Control-Allow-Origin" (header_lines (json_response data))
  = Some (Header "*")
  /\ dict_get "Content-Length" (header_lines (json_response data))
     = Some (LengthOf (JsonBody data)).
Proof. split; reflexivity. Qed.

Lemma set_headers_headers (content_type : string) :
  dict_get "Access-Control-Allow-Origin" (header_lines (_set_headers content_type))
  = Some (Header "*")
  /\ dict_get "Content-Length" (header_lines (_set_headers content_type))
     = Some (Header "0").
Proof. split; reflexivity. Qed.

Lemma error_response_headers (status_code : Z) (message : fstr) :
  dict_get "Access-Control-Allow-Origin"
           (header_lines (error_response status_code message)) = None
  /\ dict_get "Content-Length" (header_lines (error_response status_code message))
     = Some (LengthOf (ErrorBody message)).
Proof. split; reflexivity. Qed.

(** C8, where the handler departs from it. A POST to a name that is not
    bound is answered 404 by [_handle_error], and the response has a
    Content-Length header but no Access-Control-Allow-Origin header; the
    response of [do_OPTIONS] has Access-Control-Allow-Origin and no
    Content-Length header. *)
Theorem responses_missing_headers :
  (exists r : response,
     outcome (do_POST (Request "/tools/does_not_exist" (inr "") (inr None)))
             (example_world (VStr "tok") ok_200)
     = inr (Some r)
     /\ code r = 404%Z
     /\ dict_get "Access-Control-Allow-Origin" (header_lines r) = None
     /\ dict_get "Content-Length" (header_lines r)
        = Some (LengthOf (ErrorBody [Lit "Tool '"; Lit "does_not_exist";
                                     Lit "' not found"])))
  /\ code do_OPTIONS = 200%Z
  /\ dict_get "Access-Control-Allow-Origin" (header_lines do_OPTIONS)
     = Some (Header "*")
  /\ dict_get "Content-Length" (header_lines do_OPTIONS) = None.
Proof.
  split; [|repeat split].
  eexists. repeat split.
Qed.

(* ===================================================================== *)
(** ** C9: every callable of the module can be called *)

(** C9. For every name bound to a callable in the module namespace, known
    tool or not, a POST to [/tools/<name>] whose body was read never
    answers 404. If the body is empty or parses as JSON, the handler makes
    the call [tool_func( **params )] and answers by how that call ends: 200
    with the returned value, 500 when the call raises or returns what
    [json.dumps] rejects, nothing when the call never returns; whatever
    the call sends upstream or assigns to [VERCEL_TOKEN] has happened. If
    [json.loads] raises [JSONDecodeError], the answer is 400; if it raises
    anything else, that exception leaves the handler. *)
Theorem dispatch_over_globals (name : string) (o : pyobj) (req : request)
    (post_data : string) (w : world) :
  dict_get name (module_globals w) = Some o ->
  callable o = true ->
  path req = "/tools/" ++ name ->
  read_body req = inr post_data ->
  response_code (outcome (do_POST req) w) <> Some 404%Z
  /\ match params_of req post_data with
     | inl e => outcome (do_POST req) w = inl e
     | inr None => response_code (outcome (do_POST req) w) = Some 400%Z
     | inr (Some params) =>
         match outcome (call o params) (dispatched name params w) with
         | inr (Some (Value v)) =>
             outcome (do_POST req) w = inr (Some (json_response v))
         | inr (Some (Object type_of)) =>
             response_code (outcome (do_POST req) w) = Some 500%Z
         | inr None => outcome (do_POST req) w = inr None
         | inl e =>
             outcome (do_POST req) w
             = inr (Some (error_response 500
                            [Lit "Error calling tool: "; fmt_exn e]))
         end
         /\ sent (after (do_POST req) w)
            = sent (after (call o params) (dispatched name params w))
         /\ VERCEL_TOKEN (after (do_POST req) w)
            = VERCEL_TOKEN (after (call o params) (dispatched name params w))
     end.
Proof.
  intros Hget Hcallable Hpath Hbody. unfold outcome, after.
  rewrite (do_POST_run req _ _ w Hpath Hbody).
  destruct (params_of req post_data) as [e|[params|]].
  - split; [discriminate | reflexivity].
  - rewrite Hget, Hcallable, call_tool_run. fold (dispatched name params w).
    destruct (call o params (dispatched name params w)) as [[e|[[v|t]|]] w'];
      cbn; repeat split; discriminate.
  - split; [discriminate | reflexivity].
Qed.

(** The four names of C9 are bound to callables and are no known tools. *)
Lemma callables_outside_known_tools (w : world) :
  Forall (fun name =>
            (exists o, dict_get name (module_globals w) = Some o
                       /\ callable o = true)
            /\ mem_str name known_tools = false)
         ["run_vercel_command"; "get_registered_tools"; "check_port_in_use"; "main"].
Proof. repeat constructor; eexists; split; reflexivity. Qed.

(** A POST to [/tools/run_vercel_command] with [{"command_args": ["ls"]}]
    runs [run_vercel_command(["ls"])]: one request goes upstream with the
    token, and the answer is 200. *)
Lemma dispatch_over_globals_witness :
  response_code
    (outcome (do_POST (Request "/tools/run_vercel_command" (inr "{...}")
                               (inr (Some (VDict [("command_args", VList [VStr "ls"])])))))
             (example_world (VStr "tok") ok_200))
  = Some 200%Z
  /\ sent (after (do_POST (Request "/tools/run_vercel_command" (inr "{...}")
                             (inr (Some (VDict [("command_args", VList [VStr "ls"])])))))
                 (example_world (VStr "tok") ok_200))
     = [get_request (example_world (VStr "tok") ok_200) [Lit "/v9/projects"] []].
Proof.
  destruct (dispatch_over_globals "run_vercel_command"
              (Function fn_run_vercel_command)
              (Request "/tools/run_vercel_command" (inr "{...}")
                       (inr (Some (VDict [("command_args", VList [VStr "ls"])]))))
              "{...}" (example_world (VStr "tok") ok_200)
              eq_refl eq_refl eq_refl eq_refl)
    as (_ & Hout & Hsent & _).
  split; [|exact Hsent].
  cbv beta iota in Hout. rewrite Hout. reflexivity.
Defined.

(* ===================================================================== *)
(** ** C10: the response of [set_vercel_token] and the token *)

(** C10. For any two strs the two responses of [set_vercel_token] are the
    same envelope apart from the timestamp, and the same envelope when the
    calls start from the same world: the response does not depend on the
    token. The message is the fixed str [Vercel token updated
    successfully]; it never contains the masked form of the token. *)
Theorem set_vercel_token_response (t1 t2 : string) (w1 w2 : world) :
  exists ts1 ts2 m1 m2 : string,
    outcome (set_vercel_token (VStr t1)) w1 =
    inr (VDict [("status", VStr "success");
                ("message", VStr "Vercel token updated successfully");
                ("timestamp", VStr ts1)])
    /\ outcome (set_vercel_token (VStr t2)) w2 =
       inr (VDict [("status", VStr "success");
                   ("message", VStr "Vercel token updated successfully");
                   ("timestamp", VStr ts2)])
    /\ dict_remove "timestamp"
         [("status", VStr "success");
          ("message", VStr "Vercel token updated successfully");
          ("timestamp", VStr ts1)]
       = dict_remove "timestamp"
           [("status", VStr "success");
            ("message", VStr "Vercel token updated successfully");
            ("timestamp", VStr ts2)]
    /\ outcome (set_vercel_token (VStr t1)) w1
       = outcome (set_vercel_token (VStr t2)) w1
    /\ masked_token (VStr t1) = inr m1
    /\ masked_token (VStr t2) = inr m2
    /\ contains m1 "Vercel token updated successfully" = false
    /\ contains m2 "Vercel token updated successfully" = false.
Proof.
  destruct (masked_not_in_message t1) as (m1 & Hm1 & Hc1).
  destruct (masked_not_in_message t2) as (m2 & Hm2 & Hc2).
  unfold outcome. rewrite !set_vercel_token_run. cbn [fst].
  do 2 eexists. exists m1, m2. repeat split; assumption.
Qed.


(* ===================================================================== *)
(** * Further properties *)

(** ** [run_vercel_command] on any argument *)

Lemma silent_lift {E A : Type} (r : E + A) : silent (lift r).
Proof. intro w. split; reflexivity. Qed.

Lemma silent_ret {E A : Type} (a : A) : silent (@ret E A a).
Proof. intro w. split; reflexivity. Qed.

Lemma silent_now {E : Type} : silent (@now E).
Proof. intro w. split; reflexivity. Qed.

Lemma silent_api_headers {E : Type} : silent (@api_headers E).
Proof. intro w. split; reflexivity. Qed.

Lemma silent_bind {E A B : Type} (c : M E A) (k : A -> M E B) :
  silent c -> (forall a, silent (k a)) -> silent (bind c k).
Proof.
  intros Hc Hk w. specialize (Hc w). unfold after, bind in *.
  destruct (c w) as [[e|a] w1]; cbn [snd] in *; [exact Hc|].
  destruct Hc as [Ht0 Hs0]. destruct (Hk a w1) as [Ht Hs].
  unfold after in *. split; congruence.
Qed.

Lemma silent_if {E A : Type} (b : bool) (c1 c2 : M E A) :
  silent c1 -> silent c2 -> silent (if b then c1 else c2).
Proof. destruct b; auto. Qed.

Lemma well_behaved_bind {A : Type} (c : M pyerr A) (k : A -> M pyerr value) :
  silent c -> (forall a, well_behaved (k a)) -> well_behaved (bind c k).
Proof.
  intros Hc Hk w. specialize (Hc w). unfold after, outcome, bind in *.
  destruct (c w) as [[e|a] w1]; cbn [fst snd] in *.
  - destruct Hc as [Ht Hs]. split; [split; [exact Ht | now left]|discriminate].
  - destruct Hc as [Ht Hs]. destruct (Hk a w1) as [[Ht' Hs'] Hv].
    unfold after, outcome in *. split; [|exact Hv].
    split; [congruence|]. rewrite <- Hs. exact Hs'.
Qed.

Lemma well_behaved_if (b : bool) (c1 c2 : M pyerr value) :
  well_behaved c1 -> well_behaved c2 -> well_behaved (if b then c1 else c2).
Proof. destruct b; auto. Qed.

(** One GET and the processing of its response. *)
Lemma well_behaved_get (req : http_get) :
  well_behaved (bind (requests_get req) process_response).
Proof.
  intro w. unfold after, outcome, bind, requests_get, process_response.
  destruct (upstream w (length (sent w)) req) as [e|r]; cbn [fst snd].
  - split; [split; [reflexivity | right; now eexists] | discriminate].
  - destruct (_ && _)%bool; unfold bind, response_json, lift, now, ret.
    + destruct (json r) as [e|data]; cbn [fst snd].
      * split; [split; [reflexivity | right; now eexists] | discriminate].
      * split; [split; [reflexivity | right; now eexists]|].
        intros v [= <-]. do 2 eexists. split; [reflexivity|].
        split; [reflexivity | now left].
    + cbn [fst snd]. split; [split; [reflexivity | right; now eexists]|].
      intros v [= <-]. do 2 eexists. split; [reflexivity|].
      split; [reflexivity | now right].
Qed.

Lemma well_behaved_unsupported (joined : string) :
  well_behaved
    (bind now (fun t =>
       ret (VDict [("status", VStr "error");
                   ("message", VStr ("Unsupported command: " ++ joined));
                   ("timestamp", VStr (isoformat t))]))).
Proof.
  intro w. split; [split; [reflexivity | now left]|].
  intros v [= <-]. do 2 eexists. split; [reflexivity|].
  split; [reflexivity | now right].
Qed.

(** A [try] whose body is well behaved, handled by the [except] block of
    the tools, returns an envelope and has sent at most one request. *)
Lemma try_except_api_error (body : M pyerr value) (w : world) :
  well_behaved body ->
  exists v, outcome (try_except body (@api_error exn)) w = inr v
            /\ is_envelope v
            /\ at_most_one_request w (after (try_except body (@api_error exn)) w).
Proof.
  intro Hbody. destruct (Hbody w) as [Hreq Henv].
  unfold outcome, after, try_except in *.
  destruct (body w) as [[e|v] w1]; cbn [fst snd] in *.
  - eexists. split; [reflexivity|]. split; [|exact Hreq].
    do 2 eexists. split; [reflexivity|]. split; [reflexivity | now right].
  - exists v. split; [reflexivity|]. split; [now apply Henv | exact Hreq].
Qed.

Create HintDb tools discriminated.
#[local] Hint Resolve silent_lift silent_ret silent_now silent_api_headers
  well_behaved_get well_behaved_unsupported : tools.
#[local] Hint Extern 2 (silent (bind _ _)) => apply silent_bind; [|intro] : tools.
#[local] Hint Extern 2 (silent (if _ then _ else _)) => apply silent_if : tools.
#[local] Hint Extern 3 (well_behaved (bind _ _)) =>
  apply well_behaved_bind; [|intro] : tools.
#[local] Hint Extern 2 (well_behaved (if _ then _ else _)) =>
  apply well_behaved_if : tools.

Lemma run_vercel_command_token (command_args : value) (w : world) :
  VERCEL_TOKEN (after (run_vercel_command command_args) w) = VERCEL_TOKEN w.
Proof.
  assert (H : exists v : value,
             outcome (run_vercel_command command_args) w = inr v
             /\ is_envelope v
             /\ at_most_one_request w (after (run_vercel_command command_args) w)).
  { unfold run_vercel_command. apply try_except_api_error.
    auto 30 with tools. }
  destruct H as (v & _ & _ & Htoken & _). exact Htoken.
Qed.

(** X1. Whatever JSON value it is given, [run_vercel_command] does not
    raise: it returns an envelope (a dict with a timestamp whose status is
    [success] or [error]), has sent at most one request, and has left
    [VERCEL_TOKEN] as it was. *)
Theorem run_vercel_command_safe (command_args : value) (w : world) :
  exists v : value,
    outcome (run_vercel_command command_args) w = inr v
    /\ is_envelope v
    /\ at_most_one_request w (after (run_vercel_command command_args) w).
Proof.
  unfold run_vercel_command. apply try_except_api_error.
  auto 30 with tools.
Qed.

(** ** Which arguments reach the API *)

Lemma eq_str_true (v : value) (s : string) : eq_str v s = true -> v = VStr s.
Proof.
  destruct v; try discriminate. simpl. intro H.
  apply String.eqb_eq in H. now subst.
Qed.

Lemma index_of_Some (s : string) (items : list value) (i : nat) :
  index_of s items = Some i -> existsb (fun x => eq_str x s) items = true.
Proof.
  revert i. induction items as [|x items IH]; simpl; intros i H; [discriminate|].
  destruct (eq_str x s); [reflexivity|]. simpl.
  destruct (index_of s items); [now apply (IH n) | discriminate].
Qed.

Lemma index_of_None (s : string) (items : list value) :
  index_of s items = None -> existsb (fun x => eq_str x s) items = false.
Proof.
  induction items as [|x items IH]; simpl; intros H; [reflexivity|].
  destruct (eq_str x s); [discriminate|]. simpl.
  destruct (index_of s items); [discriminate | now apply IH].
Qed.

(** A list that starts with [ls], or with [project], [ls], does what
    [["ls"]] does, whatever follows. *)
Lemma run_vercel_command_ls_prefix (rest : list value) (w : world) :
  run_vercel_command (VList (VStr "ls" :: rest)) w
  = try_get [Lit "/v9/projects"] [] w.
Proof. reflexivity. Qed.

Lemma run_vercel_command_project_ls (rest : list value) (w : world) :
  run_vercel_command (VList (VStr "project" :: VStr "ls" :: rest)) w
  = try_get [Lit "/v9/projects"] [] w.
Proof. reflexivity. Qed.

(** A list that starts with [list] sends the GET of [list_deployments],
    with a [name] and a [limit] read from the rest of the list. *)
Lemma run_vercel_command_list (rest : list value) (w : world) :
  run_vercel_command (VList (VStr "list" :: rest)) w
  = try_get [Lit "/v6/deployments"]
      (match rest with
       | name :: _ => if eq_str name "--limit" then [] else [("name", name)]
       | [] => []
       end
       ++ match index_of "--limit" rest with
          | Some i =>
              match nth_error rest (S i) with
              | Some v => [("limit", v)]
              | None => []
              end
          | None => []
          end) w.
Proof.
  unfold run_vercel_command, try_get, try_except.
  cbv [bind lift ret api_headers read_token py_getitem py_len py_contains_str
       py_index_str].
  cbn [nth_error length Nat.leb Nat.ltb existsb index_of option_map orb].
  change (eq_str (VStr "list") "ls") with false.
  change (eq_str (VStr "list") "project") with false.
  change (eq_str (VStr "list") "list") with true.
  change (eq_str (VStr "list") "--limit") with false.
  cbv beta iota.
  destruct rest as [|name rest]; [reflexivity|].
  cbn [nth_error length Nat.leb Nat.ltb existsb index_of option_map orb].
  destruct (eq_str name "--limit") eqn:Hname;
    cbn [nth_error length Nat.leb Nat.ltb existsb index_of option_map orb negb
         Nat.add app].
  - destruct rest as [|v rest]; reflexivity.
  - destruct (index_of "--limit" rest) as [i|] eqn:Hi.
    + rewrite (index_of_Some _ _ _ Hi). cbn [option_map].
      replace (S (S i) + 1)%nat with (S (S (S i))) by lia.
      change (nth_error (VStr "list" :: name :: rest) (S (S (S i))))
        with (nth_error rest (S i)).
      match goal with
      | |- context [(?a <=? ?b)%nat] => destruct (Nat.leb_spec a b) as [Hle|Hgt]
      end.
      * destruct (nth_error rest (S i)) as [v|] eqn:Hnth; [reflexivity|].
        apply nth_error_None in Hnth. lia.
      * destruct (nth_error rest (S i)) as [v|] eqn:Hnth; [|reflexivity].
        assert (S i < length rest)%nat by (apply nth_error_Some; congruence). lia.
    + rewrite (index_of_None _ _ Hi). reflexivity.
Qed.

(** Every other non-empty list ends in the [else] branch: the items are
    joined, or the join raises and the [except] block answers. *)
Lemma run_vercel_command_else (first : value) (rest : list value) (w : world) :
  reaches_api (VList (first :: rest)) = false ->
  run_vercel_command (VList (first :: rest)) w
  = match py_join " " (VList (first :: rest)) with
    | inl e => api_error e w
    | inr joined =>
        (inr (VDict [("status", VStr "error");
                     ("message", VStr ("Unsupported command: " ++ joined));
                     ("timestamp", VStr (isoformat (clock w (clock_reads w))))]),
         with_clock_reads (S (clock_reads w)) w)
    end.
Proof.
  intro Hreach. cbn [reaches_api] in Hreach.
  apply orb_false_iff in Hreach as [Hreach Hproject].
  apply orb_false_iff in Hreach as [Hls Hlist].
  unfold run_vercel_command, try_except.
  cbv [bind lift ret api_headers read_token now].
  cbn [py_getitem nth_error py_len length]. rewrite Hls. cbv beta iota.
  rewrite Hlist.
  assert (His_ls :
    forall w0 : world,
      (if (2 <=? S (length rest))%nat
       then fun w1 : world =>
              (if eq_str first "project"
               then fun w2 : world =>
                      match match nth_error (first :: rest) 1 with
                            | Some x => inr x
                            | None => inl (PyErr "IndexError" "list index out of range")
                            end
                      with
                      | inl e => (@inl pyerr bool e, w2)
                      | inr a => (inr (eq_str a "ls"), w2)
                      end
               else fun w2 : world => (inr false, w2)) w1
       else fun w1 : world => (inr false, w1)) w0 = (inr false, w0)).
  { intro w0. destruct rest as [|second rest]; [reflexivity|].
    cbn [length Nat.leb nth_error]. destruct (eq_str first "project");
      [|reflexivity]. cbn in Hproject. now rewrite Hproject. }
  rewrite His_ls. cbv beta iota.
  destruct (py_join " " (VList (first :: rest))) as [e|joined]; reflexivity.
Qed.

(** A str is indexed and joined character by character: its first
    character is never [ls], [project] or [list]. *)
Lemma run_vercel_command_str (c : ascii) (s : string) (w : world) :
  run_vercel_command (VStr (String c s)) w
  = (inr (VDict [("status", VStr "error");
                 ("message", VStr ("Unsupported command: "
                                   ++ join " " (chars (String c s))));
                 ("timestamp", VStr (isoformat (clock w (clock_reads w))))]),
     with_clock_reads (S (clock_reads w)) w).
Proof.
  unfold run_vercel_command, try_except.
  cbv [bind lift ret api_headers read_token now].
  cbn [py_getitem String.get py_len].
  assert (Hls : eq_str (VStr (String c "")) "ls" = false)
    by (cbn [eq_str String.eqb]; now destruct (Ascii.eqb c _)).
  assert (Hproject : eq_str (VStr (String c "")) "project" = false)
    by (cbn [eq_str String.eqb]; now destruct (Ascii.eqb c _)).
  assert (Hlist : eq_str (VStr (String c "")) "list" = false)
    by (cbn [eq_str String.eqb]; now destruct (Ascii.eqb c _)).
  rewrite Hls. cbv beta iota. rewrite Hproject.
  destruct (2 <=? String.length (String c s))%nat; cbv beta iota;
    rewrite Hlist; reflexivity.
Qed.

(** Outside the two API branches nothing is sent. *)
Lemma run_vercel_command_elsewhere (command_args : value) (w : world) :
  reaches_api command_args = false ->
  sent (after (run_vercel_command command_args) w) = sent w
  /\ exists entries,
       outcome (run_vercel_command command_args) w = inr (VDict entries)
       /\ dict_get "status" entries = Some (VStr "error").
Proof.
  intro Hreach. unfold after, outcome.
  destruct command_args as [| b | n | x | s | items | entries];
    try (split; [reflexivity | eexists; split; reflexivity]).
  - destruct s as [|c s]; [split; [reflexivity | eexists; split; reflexivity]|].
    rewrite run_vercel_command_str.
    split; [reflexivity | eexists; split; reflexivity].
  - destruct items as [|first rest];
      [split; [reflexivity | eexists; split; reflexivity]|].
    rewrite (run_vercel_command_else _ _ _ Hreach).
    destruct (py_join " " (VList (first :: rest))) as [e|joined];
      (split; [reflexivity | eexists; split; reflexivity]).
Qed.

Lemma strs_from_map (i : nat) (words : list string) :
  strs_from i (map VStr words) = inr words.
Proof.
  revert i. induction words as [|s words IH]; intro i; [reflexivity|].
  cbn [map strs_from]. now rewrite IH.
Qed.

(** X2. [run_vercel_command] calls the API exactly for the argument lists
    that start with [ls], with [list], or with [project], [ls]: then it
    sends one GET, to [/v9/projects] or to [/v6/deployments], carrying the
    current token. For every other JSON value it sends nothing and returns
    an envelope whose status is [error]. *)
Theorem run_vercel_command_reach (command_args : value) (w : world) :
  if reaches_api command_args then
    exists req : http_get,
      sent (after (run_vercel_command command_args) w) = (sent w ++ [req])%list
      /\ (url req = [Lit base_url; Lit "/v9/projects"]
          \/ url req = [Lit base_url; Lit "/v6/deployments"])
      /\ dict_get "Authorization" (headers req)
         = Some [Lit "Bearer "; fmt (VERCEL_TOKEN w)]
  else
    sent (after (run_vercel_command command_args) w) = sent w
    /\ exists entries,
         outcome (run_vercel_command command_args) w = inr (VDict entries)
         /\ dict_get "status" entries = Some (VStr "error").
Proof.
  destruct (reaches_api command_args) eqn:Hreach;
    [|now apply run_vercel_command_elsewhere].
  destruct command_args as [| | | | | [|first rest] |]; try discriminate Hreach.
  cbn [reaches_api] in Hreach. unfold after.
  destruct (eq_str first "ls") eqn:Hls.
  { apply eq_str_true in Hls as ->. rewrite run_vercel_command_ls_prefix.
    fold (after (try_get [Lit "/v9/projects"] []) w). rewrite try_get_sent.
    eexists. split; [reflexivity|]. split; [now left | reflexivity]. }
  destruct (eq_str first "list") eqn:Hlist.
  { apply eq_str_true in Hlist as ->. rewrite run_vercel_command_list.
    match goal with
    | |- context [snd (try_get ?ep ?q w)] =>
        fold (after (try_get ep q) w); rewrite try_get_sent
    end.
    eexists. split; [reflexivity|]. split; [now right | reflexivity]. }
  cbn [orb] in Hreach. apply andb_true_iff in Hreach as [Hproject Hsecond].
  apply eq_str_true in Hproject as ->.
  destruct rest as [|second rest]; [discriminate Hsecond|].
  apply eq_str_true in Hsecond as ->. rewrite run_vercel_command_project_ls.
  fold (after (try_get [Lit "/v9/projects"] []) w). rewrite try_get_sent.
  eexists. split; [reflexivity|]. split; [now left | reflexivity].
Qed.

(** X3. A [list] command sends one GET to [/v6/deployments]. Its query
    carries [name], the second item, unless there is none or it is
    [--limit]; and [limit], the item after the first [--limit], unless
    [--limit] is absent or is the last item. Both are forwarded as they
    are; every other item is ignored. The answer is turned into an
    envelope as for the tools. *)
Theorem list_command_query (rest : list value) (w : world) :
  let query :=
    (match rest with
     | name :: _ => if eq_str name "--limit" then [] else [("name", name)]
     | [] => []
     end
     ++ match index_of "--limit" rest with
        | Some i =>
            match nth_error rest (S i) with
            | Some v => [("limit", v)]
            | None => []
            end
        | None => []
        end)%list in
  let req := get_request w [Lit "/v6/deployments"] query in
  sent (after (run_vercel_command (VList (VStr "list" :: rest))) w)
  = (sent w ++ [req])%list
  /\ outcome (run_vercel_command (VList (VStr "list" :: rest))) w
     = inr (envelope_for (upstream w (length (sent w)) req)
                         (isoformat (clock w (clock_reads w)))).
Proof.
  cbv zeta. unfold after, outcome. rewrite run_vercel_command_list.
  split.
  - apply try_get_sent.
  - apply try_get_outcome.
Qed.

(** X4. A non-empty list of strs that starts neither with [ls], nor with
    [list], nor with [project], [ls] is answered with the error envelope
    whose message is [Unsupported command: ] followed by the strs joined by
    single spaces. Nothing is sent and nothing is printed. *)
Theorem unsupported_command (words : list string) (w : world) :
  words <> [] ->
  reaches_api (VList (map VStr words)) = false ->
  outcome (run_vercel_command (VList (map VStr words))) w
  = inr (VDict [("status", VStr "error");
                ("message", VStr ("Unsupported command: " ++ join " " words));
                ("timestamp", VStr (isoformat (clock w (clock_reads w))))])
  /\ sent (after (run_vercel_command (VList (map VStr words))) w) = sent w
  /\ printed (after (run_vercel_command (VList (map VStr words))) w) = printed w.
Proof.
  intros Hwords Hreach. destruct words as [|s words]; [contradiction|].
  unfold outcome, after. cbn [map] in *.
  rewrite (run_vercel_command_else _ _ _ Hreach).
  change (VStr s :: map VStr words) with (map VStr (s :: words)).
  unfold py_join. rewrite strs_from_map. now conjuncts.
Qed.

Lemma unsupported_command_witness :
  outcome (run_vercel_command (VList (map VStr ["deploy"; "--prod"])))
          (example_world (VStr "tok") ok_200)
  = inr (VDict [("status", VStr "error");
                ("message", VStr "Unsupported command: deploy --prod");
                ("timestamp", VStr "2025-03-14T09:26:00")])
  /\ sent (after (run_vercel_command (VList (map VStr ["deploy"; "--prod"])))
                 (example_world (VStr "tok") ok_200)) = []
  /\ printed (after (run_vercel_command (VList (map VStr ["deploy"; "--prod"])))
                    (example_world (VStr "tok") ok_200)) = [].
Proof.
  apply (unsupported_command ["deploy"; "--prod"]
                             (example_world (VStr "tok") ok_200)).
  - discriminate.
  - reflexivity.
Defined.

(** X5. A command given as a str instead of a list never reaches the API:
    the str is indexed and joined character by character, so a non-empty
    str, [ls] included, is answered with [Unsupported command: ] followed
    by its characters separated by spaces. *)
Theorem str_command_unsupported (s : string) (w : world) :
  s <> "" ->
  outcome (run_vercel_command (VStr s)) w
  = inr (VDict [("status", VStr "error");
                ("message", VStr ("Unsupported command: " ++ join " " (chars s)));
                ("timestamp", VStr (isoformat (clock w (clock_reads w))))])
  /\ sent (after (run_vercel_command (VStr s)) w) = sent w.
Proof.
  intro Hs. destruct s as [|c s]; [contradiction|].
  unfold outcome, after. rewrite run_vercel_command_str. now split.
Qed.

Lemma str_command_unsupported_witness :
  outcome (run_vercel_command (VStr "ls")) (example_world (VStr "tok") ok_200)
  = inr (VDict [("status", VStr "error");
                ("message", VStr "Unsupported command: l s");
                ("timestamp", VStr "2025-03-14T09:26:00")])
  /\ sent (after (run_vercel_command (VStr "ls"))
                 (example_world (VStr "tok") ok_200)) = [].
Proof.
  apply (str_command_unsupported "ls" (example_world (VStr "tok") ok_200)).
  discriminate.
Defined.

(* ===================================================================== *)
(** ** The tools that do not call the API *)

Lemma masked_token_defined (token : value) :
  (exists masked, masked_token token = inr masked)
  <-> match token with
      | VStr _ => True
      | VList items => (length items <= 8)%nat
      | VDict entries => (length entries <= 8)%nat
      | _ => False
      end.
Proof.
  unfold masked_token.
  destruct token as [| b | n | x | s | items | entries]; cbn [py_len];
    try (split; [intros [masked H]; discriminate H | contradiction]).
  - split; [trivial|]. intros _. destruct (8 <? String.length s)%nat; now eexists.
  - destruct (Nat.ltb_spec 8 (length items)) as [Hlt|Hle].
    + split; [intros [masked H]; discriminate H | lia].
    + split; [intros _; exact Hle | intros _; now eexists].
  - destruct (Nat.ltb_spec 8 (length entries)) as [Hlt|Hle].
    + split; [intros [masked H]; discriminate H | lia].
    + split; [intros _; exact Hle | intros _; now eexists].
Qed.

Lemma set_vercel_token_any (token : value) (w : world) :
  set_vercel_token token w
  = match masked_token token with
    | inl e =>
        (inl e, with_token token (stamped (tool_call_line "set_vercel_token") w))
    | inr masked =>
        (inr (VDict [("status", VStr "success");
                     ("message", VStr "Vercel token updated successfully");
                     ("timestamp", VStr (isoformat (clock w (S (clock_reads w)))))]),
         with_clock_reads (S (S (clock_reads w)))
           (printing [Lit "Vercel token updated: "; Lit masked]
              (with_token token (stamped (tool_call_line "set_vercel_token") w))))
    end.
Proof.
  unfold set_vercel_token, bind. cbn [print_tool_call assign_token].
  unfold lift. destruct (masked_token token); reflexivity.
Qed.

(** X6. [set_vercel_token] assigns before it looks at its argument:
    whatever JSON value it is given, [VERCEL_TOKEN] holds that value
    afterwards and nothing is sent. It returns for every str and for lists
    and dicts of at most eight entries; for [None], bools, numbers and
    longer lists and dicts it raises, after the assignment. *)
Theorem set_vercel_token_assigns_first (token : value) (w : world) :
  VERCEL_TOKEN (after (set_vercel_token token) w) = token
  /\ sent (after (set_vercel_token token) w) = sent w
  /\ ((exists envelope, outcome (set_vercel_token token) w = inr envelope)
      <-> match token with
          | VStr _ => True
          | VList items => (length items <= 8)%nat
          | VDict entries => (length entries <= 8)%nat
          | _ => False
          end).
Proof.
  unfold after, outcome. rewrite set_vercel_token_any.
  rewrite <- masked_token_defined.
  destruct (masked_token token) as [e|masked]; conjuncts; try reflexivity.
  - split; [intros [envelope H]; discriminate H | intros [m H]; discriminate H].
  - split; intros _; now eexists.
Qed.

(** A POST to [/tools/set_vercel_token] with the parameters
    [{"token": token}]. *)
Lemma do_POST_set_vercel_token (token : value) (req : request)
    (post_data : string) (w : world) :
  path req = "/tools/set_vercel_token" ->
  read_body req = inr post_data ->
  params_of req post_data = inr (Some (VDict [("token", token)])) ->
  do_POST req w
  = call_tool "set_vercel_token" (Function fn_set_vercel_token)
              (VDict [("token", token)]) (announced "set_vercel_token" w)
  /\ call (Function fn_set_vercel_token) (VDict [("token", token)])
     = returns (set_vercel_token token).
Proof.
  intros Hpath Hbody Hparams. split; [|reflexivity].
  rewrite (do_POST_run req "set_vercel_token" post_data w Hpath Hbody), Hparams.
  reflexivity.
Qed.

(** X7. A token that [set_vercel_token] rejects is kept all the same: when
    [{"token": token}] is posted with a token that is [None], a bool, a
    number, or a list or dict of more than eight entries, the answer is 500
    and [VERCEL_TOKEN] holds the rejected value afterwards. *)
Theorem rejected_token_is_stored (token : value) (req : request)
    (post_data : string) (w : world) :
  path req = "/tools/set_vercel_token" ->
  read_body req = inr post_data ->
  params_of req post_data = inr (Some (VDict [("token", token)])) ->
  match token with
  | VStr _ => False
  | VList items => (8 < length items)%nat
  | VDict entries => (8 < length entries)%nat
  | _ => True
  end ->
  response_code (outcome (do_POST req) w) = Some 500%Z
  /\ VERCEL_TOKEN (after (do_POST req) w) = token.
Proof.
  intros Hpath Hbody Hparams Hshape.
  destruct (do_POST_set_vercel_token token req post_data w Hpath Hbody Hparams)
    as [Hrun Hcall].
  unfold outcome, after. rewrite Hrun, call_tool_run, Hcall, returns_run.
  rewrite set_vercel_token_any.
  destruct (masked_token token) as [e|masked] eqn:Hmask;
    [cbn [fst snd]; split; reflexivity|].
  exfalso.
  assert (Hdefined : exists m, masked_token token = inr m)
    by (exists masked; exact Hmask).
  apply masked_token_defined in Hdefined.
  destruct token; try contradiction; lia.
Qed.

Lemma rejected_token_is_stored_witness :
  response_code
    (outcome (do_POST (Request "/tools/set_vercel_token" (inr "{...}")
                               (inr (Some (VDict [("token", VInt 12345)])))))
             (example_world (VStr "tok") ok_200))
  = Some 500%Z
  /\ VERCEL_TOKEN
       (after (do_POST (Request "/tools/set_vercel_token" (inr "{...}")
                                (inr (Some (VDict [("token", VInt 12345)])))))
              (example_world (VStr "tok") ok_200))
     = VInt 12345.
Proof.
  apply (rejected_token_is_stored (VInt 12345)
           (Request "/tools/set_vercel_token" (inr "{...}")
                    (inr (Some (VDict [("token", VInt 12345)]))))
           "{...}" (example_world (VStr "tok") ok_200));
    [reflexivity | reflexivity | reflexivity | exact I].
Defined.

(** X8. The handler prints the parameters of a call as they arrived: when
    [{"token": token}] is posted to [/tools/set_vercel_token], the line
    [Calling tool: set_vercel_token with params: ...] holding the whole
    token is printed, whether the tool then accepts the token or not. *)
Theorem token_logged_unmasked (token : value) (req : request)
    (post_data : string) (w : world) :
  path req = "/tools/set_vercel_token" ->
  read_body req = inr post_data ->
  params_of req post_data = inr (Some (VDict [("token", token)])) ->
  In [Lit "Calling tool: "; Lit "set_vercel_token"; Lit " with params: ";
      Fmt (VDict [("token", token)])]
     (printed (after (do_POST req) w)).
Proof.
  intros Hpath Hbody Hparams.
  destruct (do_POST_set_vercel_token token req post_data w Hpath Hbody Hparams)
    as [Hrun Hcall].
  unfold after. rewrite Hrun, call_tool_run, Hcall, returns_run.
  rewrite set_vercel_token_any.
  destruct (masked_token token) as [e|masked]; cbn [fst snd];
    unfold printing, stamped, announced, printing;
    cbn [printed with_printed with_token with_clock_reads fmt];
    repeat (apply in_or_app; first [right; left; reflexivity | left]).
Qed.

Lemma token_logged_unmasked_witness :
  In [Lit "Calling tool: "; Lit "set_vercel_token"; Lit " with params: ";
      Fmt (VDict [("token", VStr "abcd1234efgh")])]
     (printed
        (after (do_POST (Request "/tools/set_vercel_token" (inr "{...}")
                                 (inr (Some (VDict [("token", VStr "abcd1234efgh")])))))
               (example_world VNone ok_200))).
Proof.
  apply (token_logged_unmasked (VStr "abcd1234efgh")
           (Request "/tools/set_vercel_token" (inr "{...}")
                    (inr (Some (VDict [("token", VStr "abcd1234efgh")]))))
           "{...}" (example_world VNone ok_200));
    reflexivity.
Defined.

(** X9. [check_server_status] needs no token and never fails: it reports
    whether [VERCEL_TOKEN] is truthy and the process id; the CLI counts as
    installed exactly when [vercel --version] ran and exited with 0, its
    version then being the stripped output, and is reported as
    [Not installed] when the command exits with another code or cannot
    be run. Nothing is sent and [VERCEL_TOKEN] is left as it is. *)
Theorem check_server_status_report (w : world) :
  exists entries : list (string * value),
    outcome check_server_status w = inr (VDict entries)
    /\ dict_get "vercel_token_configured" entries
       = Some (VBool (truthy (VERCEL_TOKEN w)))
    /\ dict_get "pid" entries = Some (VInt (pid w))
    /\ match vercel_cli w with
       | inr result =>
           if (returncode result =? 0)%Z then
             dict_get "vercel_cli_installed" entries = Some (VBool true)
             /\ dict_get "vercel_cli_version" entries
                = Some (VStr (strip (stdout result)))
           else
             dict_get "vercel_cli_installed" entries = Some (VBool false)
             /\ dict_get "vercel_cli_version" entries
                = Some (VStr "Not installed")
       | inl _ =>
           dict_get "vercel_cli_installed" entries = Some (VBool false)
           /\ dict_get "vercel_cli_version" entries = Some (VStr "Not installed")
       end
    /\ sent (after check_server_status w) = sent w
    /\ VERCEL_TOKEN (after check_server_status w) = VERCEL_TOKEN w.
Proof.
  unfold outcome, after, check_server_status, print_tool_call, bind, try_except,
    subprocess_run, now, print, read_token, getpid, ret.
  cbn [fst snd vercel_cli with_printed with_clock_reads].
  destruct (vercel_cli w) as [e|result]; cbn [fst snd].
  - eexists. conjuncts; reflexivity.
  - destruct (returncode result =? 0)%Z; eexists; conjuncts; reflexivity.
Qed.

Lemma check_server_status_token (w : world) :
  VERCEL_TOKEN (after check_server_status w) = VERCEL_TOKEN w.
Proof.
  unfold after, check_server_status, print_tool_call, bind, try_except,
    subprocess_run, now, print, read_token, getpid, ret.
  cbn [fst snd vercel_cli with_printed with_clock_reads].
  destruct (vercel_cli w) as [e|result]; reflexivity.
Qed.

(** X10. Among the known tools and [run_vercel_command], only
    [set_vercel_token] assigns [VERCEL_TOKEN]: every other one leaves it as
    it was, whatever its arguments and whatever the API answers. *)
Theorem only_set_vercel_token_assigns (f : function) (args : list value)
    (w : world) :
  is_tool f = true \/ f = fn_run_vercel_command ->
  f <> fn_set_vercel_token ->
  VERCEL_TOKEN (after (apply f args) w) = VERCEL_TOKEN w.
Proof.
  intros Hf Hne.
  destruct (requires_credential f) eqn:Hcred.
  - destruct (guarded_tool f args Hcred) as (line & endpoint & query & Hrun).
    unfold after. rewrite Hrun.
    destruct (truthy (VERCEL_TOKEN w)); [|reflexivity].
    rewrite returns_run. cbn [snd].
    fold (after (try_get endpoint query) (stamped line w)).
    now rewrite try_get_token.
  - destruct f; try discriminate Hcred; try contradiction;
      try (destruct Hf as [Hf|Hf]; [vm_compute in Hf|]; discriminate Hf).
    + unfold after, apply. rewrite returns_run. cbn [snd].
      apply run_vercel_command_token.
    + unfold after, apply. rewrite returns_run. cbn [snd].
      apply check_server_status_token.
Qed.

Lemma only_set_vercel_token_assigns_witness :
  VERCEL_TOKEN (after (apply fn_get_user_info [])
                      (example_world (VStr "tok") not_found_404))
  = VStr "tok".
Proof.
  apply (only_set_vercel_token_assigns fn_get_user_info []
           (example_world (VStr "tok") not_found_404)).
  - left. reflexivity.
  - discriminate.
Defined.

(* ===================================================================== *)
(** ** [list_deployments] called by keyword *)

Lemma no_unexpected_keyword (sig : list (string * option value))
    (kwargs : list (string * value)) :
  (forall k, In k (dict_keys kwargs) -> In k (parameter_names sig)) ->
  unexpected_keyword sig kwargs = None.
Proof.
  intro Hkeys. unfold unexpected_keyword.
  destruct (find _ (dict_keys kwargs)) as [k|] eqn:Hfind; [|reflexivity].
  apply find_some in Hfind as [Hin Hneg].
  apply Hkeys, mem_str_In in Hin. rewrite Hin in Hneg. discriminate Hneg.
Qed.

Lemma list_deployments_bind (kwargs : list (string * value)) :
  (forall k, In k (dict_keys kwargs) -> k = "project_id" \/ k = "limit") ->
  bind_args (signature_of fn_list_deployments) kwargs
  = inr [match dict_get "project_id" kwargs with Some v => v | None => VNone end;
         match dict_get "limit" kwargs with Some v => v | None => VInt 5 end].
Proof.
  intro Hkeys. unfold bind_args. rewrite no_unexpected_keyword.
  - unfold missing_arguments, argument. cbn [signature_of filter map fst snd].
    destruct (dict_get "project_id" kwargs), (dict_get "limit" kwargs);
      reflexivity.
  - intros k Hin. destruct (Hkeys k Hin) as [-> | ->]; cbn; tauto.
Qed.

Lemma list_deployments_run (project_id limit : value) (w : world) :
  truthy (VERCEL_TOKEN w) = true ->
  list_deployments project_id limit w
  = try_get [Lit "/v6/deployments"]
      ((if truthy project_id then [("projectId", project_id)] else [])
       ++ (if truthy limit then [("limit", limit)] else []))
      (stamped (fun t => [Lit "Tool call: list_deployments for project_id: ";
                          fmt project_id; Lit " at "; Lit (str_datetime t)]) w).
Proof.
  intro Htoken. unfold list_deployments, bind; cbn.
  now rewrite Htoken.
Qed.

(** X11. [list_deployments] called with keywords among [project_id] and
    [limit], and a token configured, sends one GET to [/v6/deployments]. A
    [limit] that is not given is sent as 5; a [project_id] that is not
    given is not sent; and a value that is given but falsy ([0], the empty
    str, [None], [false]) is left out of the query as well, so that
    [{"limit": 0}] asks the API for its own default. *)
Theorem list_deployments_defaults (kwargs : list (string * value)) (w : world) :
  truthy (VERCEL_TOKEN w) = true ->
  (forall k, In k (dict_keys kwargs) -> k = "project_id" \/ k = "limit") ->
  exists req : http_get,
    sent (after (call (Function fn_list_deployments) (VDict kwargs)) w)
    = (sent w ++ [req])%list
    /\ url req = [Lit base_url; Lit "/v6/deployments"]
    /\ params req
       = (match dict_get "project_id" kwargs with
          | Some v => if truthy v then [("projectId", v)] else []
          | None => []
          end
          ++ match dict_get "limit" kwargs with
             | Some v => if truthy v then [("limit", v)] else []
             | None => [("limit", VInt 5)]
             end)%list.
Proof.
  intros Htoken Hkeys. unfold after, call.
  rewrite (list_deployments_bind kwargs Hkeys).
  cbn [apply nth]. rewrite returns_run. cbn [snd].
  rewrite (list_deployments_run _ _ w Htoken).
  match goal with
  | |- context [snd (try_get ?ep ?q ?w0)] =>
      fold (after (try_get ep q) w0); rewrite try_get_sent
  end.
  eexists. split; [reflexivity|]. split; [reflexivity|].
  cbn [params get_request].
  destruct (dict_get "project_id" kwargs), (dict_get "limit" kwargs); reflexivity.
Qed.

Lemma list_deployments_defaults_witness :
  exists req : http_get,
    sent (after (call (Function fn_list_deployments)
                      (VDict [("limit", VInt 0)]))
                (example_world (VStr "tok") ok_200))
    = [req]
    /\ url req = [Lit base_url; Lit "/v6/deployments"]
    /\ params req = [].
Proof.
  apply (list_deployments_defaults [("limit", VInt 0)]
                                   (example_world (VStr "tok") ok_200)).
  - reflexivity.
  - intros k [<- | []]. now right.
Defined.

(* ===================================================================== *)
(** ** What [do_POST] answers *)

(** X12. A failure inside a tool is not an HTTP error. When a known tool
    other than [set_vercel_token] is posted parameters that bind to its
    signature, the tool returns a value and the answer is 200 with that
    value as its body, also when the API could not be reached or refused
    the call; what the request has sent upstream is what the tool sent.
    When no token is configured, a tool that needs one is answered 200
    with an envelope whose status is [error]. *)
Theorem tool_failure_is_200 (f : function) (kwargs : list (string * value))
    (args : list value) (req : request) (post_data : string) (w : world) :
  is_tool f = true ->
  f <> fn_set_vercel_token ->
  path req = "/tools/" ++ function_name f ->
  read_body req = inr post_data ->
  params_of req post_data = inr (Some (VDict kwargs)) ->
  bind_args (signature_of f) kwargs = inr args ->
  exists envelope : value,
    outcome (apply f args) (dispatched (function_name f) (VDict kwargs) w)
    = inr (Some (Value envelope))
    /\ outcome (do_POST req) w = inr (Some (json_response envelope))
    /\ sent (after (do_POST req) w)
       = sent (after (apply f args)
                     (dispatched (function_name f) (VDict kwargs) w))
    /\ (requires_credential f = true ->
        truthy (VERCEL_TOKEN w) = false ->
        field "status" envelope = Some (VStr "error")).
Proof.
  intros Htool Hne Hpath Hbody Hparams Hbind. unfold outcome, after.
  rewrite (do_POST_run req _ _ w Hpath Hbody), Hparams, globals_function.
  cbn [callable]. rewrite call_tool_run.
  fold (dispatched (function_name f) (VDict kwargs) w).
  unfold call. rewrite Hbind.
  destruct (tools_return f args (dispatched (function_name f) (VDict kwargs) w)
                         Htool Hne) as [envelope Henvelope].
  exists envelope. unfold outcome in Henvelope.
  split; [exact Henvelope|]. split; [|split].
  - destruct (apply f args _) as [[e|[[v|t]|]] w']; cbn [fst] in *;
      try discriminate Henvelope.
    now injection Henvelope as ->.
  - destruct (apply f args _) as [[e|[[v|t]|]] w']; cbn [fst snd] in *;
      try discriminate Henvelope.
    reflexivity.
  - intros Hcred Hfalsy.
    destruct (guarded_tool f args Hcred) as (line & endpoint & query & Hrun).
    rewrite Hrun in Henvelope.
    change (VERCEL_TOKEN (dispatched (function_name f) (VDict kwargs) w))
      with (VERCEL_TOKEN w) in Henvelope.
    rewrite Hfalsy in Henvelope. cbn in Henvelope.
    now injection Henvelope as <-.
Qed.

Lemma tool_failure_is_200_witness :
  exists envelope : value,
    outcome (apply fn_get_user_info [])
            (dispatched "get_user_info" (VDict [])
                        (example_world (VStr "tok") not_found_404))
    = inr (Some (Value envelope))
    /\ outcome (do_POST (Request "/tools/get_user_info" (inr "") (inr None)))
               (example_world (VStr "tok") not_found_404)
       = inr (Some (json_response envelope))
    /\ sent (after (do_POST (Request "/tools/get_user_info" (inr "") (inr None)))
                   (example_world (VStr "tok") not_found_404))
       = sent (after (apply fn_get_user_info [])
                     (dispatched "get_user_info" (VDict [])
                                 (example_world (VStr "tok") not_found_404)))
    /\ (requires_credential fn_get_user_info = true ->
        truthy (VERCEL_TOKEN (example_world (VStr "tok") not_found_404)) = false ->
        field "status" envelope = Some (VStr "error")).
Proof.
  apply (tool_failure_is_200 fn_get_user_info [] []
           (Request "/tools/get_user_info" (inr "") (inr None)) ""
           (example_world (VStr "tok") not_found_404));
    [reflexivity | discriminate | reflexivity | reflexivity | reflexivity
    | reflexivity].
Defined.

Lemma prefix_inv (s p : string) :
  prefix s p = true -> exists rest, p = s ++ rest.
Proof.
  revert p. induction s as [|c s IH]; intros p H.
  - now exists p.
  - destruct p as [|d p]; [discriminate H|]. simpl in H.
    destruct (ascii_dec c d) as [->|]; [|discriminate H].
    destruct (IH p H) as [rest ->]. now exists rest.
Qed.

(** Once the body of a request to [/tools/<name>] is read and
    [json.loads] has raised nothing but [JSONDecodeError], [do_POST] raises
    nothing: it answers with the tool's value, or with an error response,
    or not at all when the call never comes back. *)
Lemma do_POST_answers (req : request) (name post_data : string) (w : world) :
  path req = "/tools/" ++ name ->
  read_body req = inr post_data ->
  match params_of req post_data with
  | inl e => outcome (do_POST req) w = inl e
  | inr _ =>
      outcome (do_POST req) w = inr None
      \/ (exists v, outcome (do_POST req) w = inr (Some (json_response v)))
      \/ (exists status_code message,
            outcome (do_POST req) w
            = inr (Some (error_response status_code message))
            /\ In status_code [400; 404; 500]%Z)
  end.
Proof.
  intros Hpath Hbody. unfold outcome.
  rewrite (do_POST_run req _ _ w Hpath Hbody).
  destruct (params_of req post_data) as [e|[params|]];
    [reflexivity | |right; right; do 2 eexists; split; [reflexivity | cbn; tauto]].
  destruct (dict_get name (module_globals w)) as [f|];
    [|right; right; do 2 eexists; split; [reflexivity | cbn; tauto]].
  destruct (callable f);
    [|right; right; do 2 eexists; split; [reflexivity | cbn; tauto]].
  rewrite call_tool_run.
  destruct (call f params _) as [[e|[[v|t]|]] w']; cbn [fst].
  - right; right. do 2 eexists. split; [reflexivity | cbn; tauto].
  - right; left. now eexists.
  - right; right. do 2 eexists. split; [reflexivity | cbn; tauto].
  - now left.
Qed.

Lemma do_POST_raises_after_read (req : request) (name post_data : string)
    (w : world) (e : pyerr) :
  path req = "/tools/" ++ name ->
  read_body req = inr post_data ->
  outcome (do_POST req) w = inl e <-> params_of req post_data = inl e.
Proof.
  intros Hpath Hbody.
  pose proof (do_POST_answers req name post_data w Hpath Hbody) as Hanswer.
  destruct (params_of req post_data) as [e'|params].
  - rewrite Hanswer. split; intro H; now injection H as ->.
  - destruct Hanswer as [H | [[v H] | (c & m & H & _)]]; rewrite H;
      split; discriminate.
Qed.

(** X13. Two things make [do_POST] raise, both on a path that starts with
    [/tools/]: reading the body raises (a Content-Length that is no number,
    a failed read, bytes that are not UTF-8), or the body is read and
    [json.loads] raises something that is no [JSONDecodeError] (a
    [RecursionError] on a body nested too deep, the [ValueError] of an int
    with too many digits). [do_POST] raises [e] exactly in these two
    cases, [e] being that exception. Whatever a tool raises is answered,
    not propagated. *)
Theorem do_POST_raises_iff (req : request) (w : world) (e : pyerr) :
  outcome (do_POST req) w = inl e
  <-> prefix "/tools/" (path req) = true
      /\ (read_body req = inl e
          \/ exists post_data,
               read_body req = inr post_data
               /\ params_of req post_data = inl e).
Proof.
  destruct (prefix "/tools/" (path req)) eqn:Hprefix.
  - destruct (prefix_inv _ _ Hprefix) as [name Hpath].
    destruct (read_body req) as [e'|post_data] eqn:Hbody.
    + unfold outcome. rewrite (do_POST_unread req _ _ w Hpath Hbody). cbn [fst].
      split.
      * intro H. injection H as ->. split; [reflexivity | now left].
      * intros [_ [H | (post_data & H & _)]];
          [now injection H as -> | discriminate H].
    + rewrite (do_POST_raises_after_read req name post_data w e Hpath Hbody).
      split.
      * intro H. split; [reflexivity|]. right. exists post_data. now split.
      * intros [_ [H | (post_data' & H & H')]]; [discriminate H|].
        injection H as <-. exact H'.
  - assert (Hrun : exists r, outcome (do_POST req) w = inr r).
    { unfold outcome, do_POST, bind. cbn [print]. rewrite Hprefix.
      now eexists. }
    destruct Hrun as [r ->].
    split; [discriminate | intros [Hfalse _]; discriminate Hfalse].
Qed.

(** X14. Every response [do_POST] writes is JSON with a Content-Length and
    [Connection: close]; its code is 200, 400, 404 or 500; and it carries
    [Access-Control-Allow-Origin] exactly when the code is 200, so that no
    error response has the header. *)
Theorem do_POST_response_shape (req : request) (w : world) (r : response) :
  outcome (do_POST req) w = inr (Some r) ->
  In (code r) [200; 400; 404; 500]%Z
  /\ dict_get "Content-type" (header_lines r) = Some (Header "application/json")
  /\ dict_get "Connection" (header_lines r) = Some (Header "close")
  /\ (exists p, body r = Some p
                /\ dict_get "Content-Length" (header_lines r) = Some (LengthOf p))
  /\ (dict_get "Access-Control-Allow-Origin" (header_lines r) = Some (Header "*")
      <-> code r = 200%Z)
  /\ (dict_get "Access-Control-Allow-Origin" (header_lines r) = None
      <-> code r <> 200%Z).
Proof.
  intro Hr.
  assert (Hshape :
    (exists v, r = json_response v)
    \/ (exists status_code message,
          r = error_response status_code message
          /\ In status_code [400; 404; 500]%Z)).
  { destruct (prefix "/tools/" (path req)) eqn:Hprefix.
    - destruct (prefix_inv _ _ Hprefix) as [name Hpath].
      destruct (read_body req) as [e'|post_data] eqn:Hbody.
      + exfalso. revert Hr. unfold outcome.
        rewrite (do_POST_unread req _ _ w Hpath Hbody). discriminate.
      + pose proof (do_POST_answers req name post_data w Hpath Hbody) as Hanswer.
        destruct (params_of req post_data) as [e'|params].
        * rewrite Hanswer in Hr. discriminate Hr.
        * destruct Hanswer as [H | [[v H] | (c & m & H & Hc)]]; rewrite H in Hr.
          -- discriminate Hr.
          -- left. exists v. congruence.
          -- right. exists c, m. split; [congruence | exact Hc].
    - right. revert Hr. unfold outcome, do_POST, bind. cbn [print].
      rewrite Hprefix. cbn. intro Hr. injection Hr as <-.
      do 2 eexists. split; [reflexivity | cbn; tauto]. }
  destruct Hshape as [[v ->] | (c & m & -> & Hc)].
  - cbn. conjuncts; try reflexivity; try tauto.
    + now eexists.
    + split; [discriminate | congruence].
  - cbn [code error_response]. conjuncts; try reflexivity.
    + cbn in Hc |- *. tauto.
    + now eexists.
    + split; [discriminate|]. intros ->. cbn in Hc.
      destruct Hc as [Hc | [Hc | [Hc | []]]]; discriminate Hc.
    + split; [|reflexivity]. intros _ ->. cbn in Hc.
      destruct Hc as [Hc | [Hc | [Hc | []]]]; discriminate Hc.
Qed.

Lemma do_POST_response_shape_witness :
  In (code (error_response 404 [Lit "Not found: "; Lit "/tools"])) [200; 400; 404; 500]%Z
  /\ dict_get "Access-Control-Allow-Origin"
              (header_lines (error_response 404 [Lit "Not found: "; Lit "/tools"]))
     = None.
Proof.
  destruct (do_POST_response_shape (Request "/tools" (inr "") (inr None))
              (example_world (VStr "tok") ok_200)
              (error_response 404 [Lit "Not found: "; Lit "/tools"])
              eq_refl)
    as (Hcode & _ & _ & _ & _ & Hnone).
  split; [exact Hcode|]. apply Hnone. discriminate.
Defined.

(** X15. Parameters that are valid JSON but no object (a list, a str, a
    number, [true], [null]) never reach a callable: [tool_func( **params )]
    raises the [TypeError] of a failed call, the answer is 500, nothing is
    sent upstream and [VERCEL_TOKEN] is left as it is. *)
Theorem non_object_params_500 (name : string) (o : pyobj) (req : request)
    (post_data : string) (params : value) (w : world) :
  dict_get name (module_globals w) = Some o ->
  callable o = true ->
  path req = "/tools/" ++ name ->
  read_body req = inr post_data ->
  params_of req post_data = inr (Some params) ->
  (forall kwargs, params <> VDict kwargs) ->
  (exists callee : string,
     outcome (do_POST req) w
     = inr (Some (error_response 500
                    [Lit "Error calling tool: ";
                     StrExn (CallTypeError callee (NotAMapping (type_name params)))])))
  /\ sent (after (do_POST req) w) = sent w
  /\ VERCEL_TOKEN (after (do_POST req) w) = VERCEL_TOKEN w.
Proof.
  intros Hget Hcallable Hpath Hbody Hparams Hobject.
  unfold outcome, after.
  rewrite (do_POST_run req _ _ w Hpath Hbody), Hparams, Hget, Hcallable.
  rewrite call_tool_run.
  destruct o as [| | v | f | class_name]; try discriminate Hcallable;
    destruct params as [| b | n | x | s | items | kwargs];
    try (exfalso; now apply (Hobject kwargs));
    (split; [eexists; reflexivity | split; reflexivity]).
Qed.

Lemma non_object_params_500_witness :
  (exists callee : string,
     outcome (do_POST (Request "/tools/list_projects" (inr "[1]")
                               (inr (Some (VList [VInt 1])))))
             (example_world (VStr "tok") ok_200)
     = inr (Some (error_response 500
                    [Lit "Error calling tool: ";
                     StrExn (CallTypeError callee (NotAMapping "list"))])))
  /\ sent (after (do_POST (Request "/tools/list_projects" (inr "[1]")
                                   (inr (Some (VList [VInt 1])))))
                 (example_world (VStr "tok") ok_200)) = []
  /\ VERCEL_TOKEN (after (do_POST (Request "/tools/list_projects" (inr "[1]")
                                           (inr (Some (VList [VInt 1])))))
                         (example_world (VStr "tok") ok_200)) = VStr "tok".
Proof.
  apply (non_object_params_500 "list_projects" (Function fn_list_projects)
           (Request "/tools/list_projects" (inr "[1]") (inr (Some (VList [VInt 1]))))
           "[1]" (VList [VInt 1]) (example_world (VStr "tok") ok_200));
    try reflexivity.
  discriminate.
Defined.

(** X16. The token guard tests truthiness, not presence. With any falsy
    [VERCEL_TOKEN] ([None], [false], [0], an empty str, list or dict) a
    tool that needs the credential returns the [not configured] envelope
    and sends nothing; with any truthy value, a str or not, it sends one
    request whose Authorization header is [Bearer ] followed by the
    value. *)
Theorem guard_follows_truthiness (f : function) (args : list value) (w : world) :
  requires_credential f = true ->
  if truthy (VERCEL_TOKEN w) then
    exists req : http_get,
      sent (after (apply f args) w) = (sent w ++ [req])%list
      /\ dict_get "Authorization" (headers req)
         = Some [Lit "Bearer "; fmt (VERCEL_TOKEN w)]
  else
    sent (after (apply f args) w) = sent w
    /\ exists ts : string,
         outcome (apply f args) w
         = inr (Some (Value (VDict
                 [("status", VStr "error");
                  ("message", VStr "Vercel token not configured. Please set the VERCEL_TOKEN environment variable.");
                  ("timestamp", VStr ts)]))).
Proof.
  intro Hf. destruct (truthy (VERCEL_TOKEN w)) eqn:Htruthy.
  - now apply tool_sends_token.
  - destruct (guarded_tool f args Hf) as (line & endpoint & query & Hrun).
    unfold outcome, after. rewrite Hrun, Htruthy. cbn.
    split; [reflexivity | now eexists].
Qed.

Lemma guard_follows_truthiness_witness :
  sent (after (apply fn_get_user_info []) (example_world (VInt 0) ok_200)) = []
  /\ exists ts : string,
       outcome (apply fn_get_user_info []) (example_world (VInt 0) ok_200)
       = inr (Some (Value (VDict
               [("status", VStr "error");
                ("message", VStr "Vercel token not configured. Please set the VERCEL_TOKEN environment variable.");
                ("timestamp", VStr ts)]))).
Proof.
  exact (guard_follows_truthiness fn_get_user_info []
           (example_world (VInt 0) ok_200) eq_refl).
Defined.

(* ===================================================================== *)
(** ** Tool discovery *)

Lemma yields_ret {E A : Type} (a : A) (w : world) : yields (@ret E A a) w a.
Proof. exists w. now conjuncts. Qed.

Lemma yields_print {E : Type} (line : fstr) (w : world) :
  yields (@print E line) w tt.
Proof. eexists. now conjuncts. Qed.

Lemma yields_now {E : Type} (w : world) :
  yields (@now E) w (clock w (clock_reads w)).
Proof. eexists. now conjuncts. Qed.

Lemma yields_bind {E A B : Type} (c : M E A) (k : A -> M E B) (w : world)
    (a : A) (b : B) :
  yields c w a ->
  (forall w', VERCEL_TOKEN w' = VERCEL_TOKEN w -> yields (k a) w' b) ->
  yields (bind c k) w b.
Proof.
  intros (w1 & Hc & Ht1 & Hs1) Hk.
  destruct (Hk w1 Ht1) as (w2 & Hk2 & Ht2 & Hs2).
  exists w2. unfold bind. rewrite Hc. conjuncts; congruence.
Qed.

Lemma module_globals_token (w w' : world) :
  VERCEL_TOKEN w' = VERCEL_TOKEN w -> module_globals w' = module_globals w.
Proof. intro H. unfold module_globals. now rewrite H. Qed.

Lemma yields_inspect {E : Type} (dir : pyobj -> list string) (name : string)
    (func : pyobj) (w : world) :
  yields (@inspect E dir name func) w
         (if discovered dir (name, func) then [name] else []).
Proof.
  unfold inspect, discovered. cbn [fst snd].
  destruct (callable func); [|apply yields_ret]. cbn [andb].
  apply yields_bind with (a := tt); [apply yields_print|]. intros w1 _.
  apply yields_bind with (a := tt);
    [destruct (is_nil _); [apply yields_ret | apply yields_print]|].
  intros w2 _.
  apply yields_bind with (a := tt);
    [destruct (mem_str name known_tools); [apply yields_print | apply yields_ret]|].
  intros w3 _.
  destruct (negb _ || _); [|apply yields_ret].
  apply yields_bind with (a := tt); [apply yields_print|]. intros w4 _.
  apply yields_ret.
Qed.

Lemma yields_inspect_all {E : Type} (dir : pyobj -> list string)
    (bindings : list (string * pyobj)) (tools : list string) (w : world) :
  yields (@inspect_all E dir bindings tools) w
         (tools ++ map fst (filter (discovered dir) bindings))%list.
Proof.
  revert tools w. induction bindings as [|[name func] rest IH]; intros tools w.
  - cbn. rewrite app_nil_r. apply yields_ret.
  - cbn [inspect_all filter].
    eapply yields_bind; [apply yields_inspect|]. intros w1 _.
    destruct (discovered dir (name, func)).
    + cbn [map fst]. replace (tools ++ name :: map fst (filter (discovered dir) rest))%list
        with ((tools ++ [name]) ++ map fst (filter (discovered dir) rest))%list
        by (now rewrite <- app_assoc).
      apply IH.
    + rewrite app_nil_r. apply IH.
Qed.

Lemma yields_print_hardcoded {E : Type} (tools : list string) (w : world) :
  yields (@print_hardcoded E tools) w tt.
Proof.
  revert w. induction tools as [|tool rest IH]; intro w; [apply yields_ret|].
  cbn [print_hardcoded].
  apply yields_bind with (a := tt); [apply yields_print|]. intros w1 _. apply IH.
Qed.

(** Every name of [known_tools] is bound to a function, so the loop finds
    it whatever [dir] answers. *)
Lemma known_tools_discovered (dir : pyobj -> list string) (w : world)
    (name : string) :
  In name known_tools ->
  In name (map fst (filter (discovered dir) (module_globals w))).
Proof.
  intro Hin.
  assert (Hf : exists f, name = function_name f /\ is_tool f = true).
  { unfold known_tools in Hin. cbn [In] in Hin.
    repeat (destruct Hin as [<- | Hin];
            [match goal with
             | |- exists f, ?n = _ /\ _ =>
                 first [ exists fn_list_projects; split; reflexivity
                       | exists fn_list_deployments; split; reflexivity
                       | exists fn_get_project_info; split; reflexivity
                       | exists fn_check_server_status; split; reflexivity
                       | exists fn_set_vercel_token; split; reflexivity
                       | exists fn_list_project_domains; split; reflexivity
                       | exists fn_list_environment_variables; split; reflexivity
                       | exists fn_get_user_info; split; reflexivity
                       | exists fn_list_deployment_aliases; split; reflexivity ]
             end|]).
    contradiction. }
  destruct Hf as (f & -> & Htool).
  apply in_map_iff. exists (function_name f, Function f). split; [reflexivity|].
  apply filter_In. split.
  - destruct f; try (vm_compute in Htool; discriminate Htool); cbn; tauto.
  - unfold discovered. cbn [fst snd callable andb]. unfold is_tool in Htool.
    rewrite Htool. apply orb_true_r.
Qed.

Lemma yields_get_registered_tools {E : Type} (dir : pyobj -> list string)
    (w : world) :
  yields (@get_registered_tools E dir) w
         (map fst (filter (discovered dir) (module_globals w))).
Proof.
  unfold get_registered_tools.
  apply yields_bind with (a := tt); [apply yields_print|]. intros w1 H1.
  apply yields_bind with (a := tt); [apply yields_print|]. intros w2 H2.
  apply yields_bind with (a := module_globals w);
    [exists w2; conjuncts; try reflexivity; unfold globals_items;
     rewrite (module_globals_token w w2) by congruence; reflexivity|].
  intros w3 H3.
  eapply yields_bind; [apply yields_inspect_all|]. intros w4 H4.
  cbn [app].
  destruct (is_nil (map fst (filter (discovered dir) (module_globals w))))
    eqn:Hnil.
  - exfalso.
    pose proof (known_tools_discovered dir w "list_projects") as Hin.
    destruct (map fst (filter (discovered dir) (module_globals w)));
      [apply Hin; cbn; tauto | discriminate Hnil].
  - eapply yields_bind; [apply yields_ret|]. intros w5 H5.
    apply yields_bind with (a := tt); [apply yields_print|]. intros w6 H6.
    apply yields_ret.
Qed.

Lemma In_dict_get {A : Type} (k : string) (v : A) (l : list (string * A)) :
  NoDup (map fst l) -> In (k, v) l -> dict_get k l = Some v.
Proof.
  induction l as [|[k' v'] l IH]; intros Hnodup Hin; [contradiction|].
  cbn [map fst] in Hnodup. apply NoDup_cons_iff in Hnodup as [Hnotin Hnodup].
  cbn [dict_get]. destruct Hin as [Heq|Hin].
  - injection Heq as -> ->. now rewrite String.eqb_refl.
  - destruct (String.eqb_spec k' k) as [->|Hne]; [|now apply IH].
    exfalso. apply Hnotin. apply in_map_iff. now exists (k, v).
Qed.

(** Filtering the bindings keeps their names distinct. *)
Lemma filter_keeps_names_distinct {A : Type} (keep : string * A -> bool)
    (bindings : list (string * A)) :
  NoDup (map fst bindings) -> NoDup (map fst (filter keep bindings)).
Proof.
  induction bindings as [|[name o] bindings IH]; intro Hdistinct; [constructor|].
  cbn [map fst] in Hdistinct.
  apply NoDup_cons_iff in Hdistinct as [Hfresh Hdistinct].
  cbn [filter]. destruct (keep (name, o)); [|now apply IH].
  cbn [map fst]. constructor; [|now apply IH].
  intro Hin. apply Hfresh. apply in_map_iff in Hin as ([name' o'] & Hname & Hin).
  apply filter_In in Hin as [Hin _]. apply in_map_iff. now exists (name', o').
Qed.

Lemma module_globals_NoDup (w : world) : NoDup (map fst (module_globals w)).
Proof.
  unfold module_globals. cbn [map fst].
  repeat (constructor; [cbn [In]; intuition discriminate|]).
  constructor.
Qed.

Lemma discovered_bound (dir : pyobj -> list string) (w : world) (name : string) :
  In name (map fst (filter (discovered dir) (module_globals w))) ->
  exists o, dict_get name (module_globals w) = Some o /\ callable o = true.
Proof.
  intro Hin. apply in_map_iff in Hin as ([name' o] & Hname & Hin).
  cbn [fst] in Hname. subst name'.
  apply filter_In in Hin as [Hin Hdisc]. exists o. split.
  - apply In_dict_get; [apply module_globals_NoDup | exact Hin].
  - unfold discovered in Hdisc. cbn [snd] in Hdisc.
    now apply andb_true_iff in Hdisc as [Hcallable _].
Qed.

(** X17. [get_registered_tools] returns the names of [globals()] that are
    bound to a callable and either are among the nine known names or have
    an attribute whose name mentions [mcp], in the order in which the
    module binds them and without repetition. The nine known names are
    always among them, so the hard-coded list is never used. It assigns
    nothing and sends nothing. *)
Theorem discovery_finds_known_tools (dir : pyobj -> list string) (w : world) :
  exists names : list string,
    outcome (@get_registered_tools exn dir) w = inr names
    /\ names = map fst (filter (discovered dir) (module_globals w))
    /\ (forall name, In name known_tools -> In name names)
    /\ (forall name, In name names ->
          exists o, dict_get name (module_globals w) = Some o
                    /\ callable o = true)
    /\ NoDup names
    /\ VERCEL_TOKEN (after (@get_registered_tools exn dir) w) = VERCEL_TOKEN w
    /\ sent (after (@get_registered_tools exn dir) w) = sent w.
Proof.
  destruct (@yields_get_registered_tools exn dir w) as (w' & Hrun & Htoken & Hsent).
  eexists. unfold outcome, after. rewrite Hrun. cbn [fst snd].
  conjuncts; try reflexivity; try assumption.
  - apply known_tools_discovered.
  - apply discovered_bound.
  - apply filter_keeps_names_distinct, module_globals_NoDup.
Qed.

(** X18. When no callable of the module has an attribute whose name
    mentions [mcp], [get_registered_tools] returns the nine known tools in
    the order the module defines them, with [set_vercel_token] before
    [check_server_status], which is not the order of the hard-coded
    list. *)
Theorem discovery_in_module_order (dir : pyobj -> list string) (w : world) :
  (forall o, callable o = true -> filter mcp_related (dir o) = []) ->
  outcome (@get_registered_tools exn dir) w
  = inr ["list_projects"; "list_deployments"; "get_project_info";
         "set_vercel_token"; "check_server_status"; "list_project_domains";
         "list_environment_variables"; "get_user_info";
         "list_deployment_aliases"]
  /\ outcome (@get_registered_tools exn dir) w <> inr known_tools.
Proof.
  intro Hdir.
  destruct (@yields_get_registered_tools exn dir w) as (w' & Hrun & _ & _).
  unfold outcome. rewrite Hrun. cbn [fst].
  assert (Hnames :
    map fst (filter (discovered dir) (module_globals w))
    = ["list_projects"; "list_deployments"; "get_project_info";
       "set_vercel_token"; "check_server_status"; "list_project_domains";
       "list_environment_variables"; "get_user_info";
       "list_deployment_aliases"]).
  { rewrite (filter_ext (discovered dir)
               (fun b => callable (snd b) && mem_str (fst b) known_tools)).
    - reflexivity.
    - intros [name o]. unfold discovered. cbn [fst snd].
      destruct (callable o) eqn:Hcallable; [|reflexivity].
      now rewrite (Hdir o Hcallable). }
  rewrite Hnames. split; [reflexivity | discriminate].
Qed.

Lemma discovery_in_module_order_witness :
  outcome (@get_registered_tools exn (fun _ => ["__call__"; "__doc__"; "__name__"]))
          (example_world (VStr "tok") ok_200)
  = inr ["list_projects"; "list_deployments"; "get_project_info";
         "set_vercel_token"; "check_server_status"; "list_project_domains";
         "list_environment_variables"; "get_user_info";
         "list_deployment_aliases"]
  /\ outcome (@get_registered_tools exn (fun _ => ["__call__"; "__doc__"; "__name__"]))
             (example_world (VStr "tok") ok_200)
     <> inr known_tools.
Proof.
  apply (discovery_in_module_order
           (fun _ => ["__call__"; "__doc__"; "__name__"])
           (example_world (VStr "tok") ok_200)).
  intros o _. reflexivity.
Defined.

(** X19. The test on attribute names admits callables that are no tools:
    any name bound to a callable that has an attribute starting with
    [__mcp], or with [mcp] anywhere in its name in any letter case, is
    returned by [get_registered_tools], known tool or not. *)
Theorem discovery_by_attribute (dir : pyobj -> list string) (w : world)
    (name attr_name : string) (o : pyobj) :
  dict_get name (module_globals w) = Some o ->
  callable o = true ->
  In attr_name (dir o) ->
  prefix "__mcp" attr_name = true \/ contains "mcp" (lower attr_name) = true ->
  exists names : list string,
    outcome (@get_registered_tools exn dir) w = inr names /\ In name names.
Proof.
  intros Hget Hcallable Hattr Hmcp.
  destruct (@yields_get_registered_tools exn dir w) as (w' & Hrun & _ & _).
  eexists. unfold outcome. rewrite Hrun. split; [reflexivity|].
  apply in_map_iff. exists (name, o). split; [reflexivity|].
  apply filter_In. split.
  - clear - Hget. induction (module_globals w) as [|[k v] l IH];
      [discriminate Hget|].
    cbn [dict_get] in Hget. destruct (String.eqb_spec k name) as [->|Hne].
    + injection Hget as ->. now left.
    + right. now apply IH.
  - unfold discovered. cbn [fst snd]. rewrite Hcallable. cbn [andb].
    assert (Hin : In attr_name (filter mcp_related (dir o))).
    { apply filter_In. split; [exact Hattr|]. unfold mcp_related.
      apply orb_true_iff. exact Hmcp. }
    destruct (filter mcp_related (dir o)); [contradiction | reflexivity].
Qed.

Lemma discovery_by_attribute_witness :
  exists names : list string,
    outcome (@get_registered_tools exn
               (fun o => match o with
                         | Class "FastMCP" => ["run"; "_MCP_server"; "tool"]
                         | _ => ["__call__"; "__doc__"]
                         end))
            (example_world (VStr "tok") ok_200)
    = inr names
    /\ In "FastMCP" names.
Proof.
  apply (discovery_by_attribute
           (fun o => match o with
                     | Class "FastMCP" => ["run"; "_MCP_server"; "tool"]
                     | _ => ["__call__"; "__doc__"]
                     end)
           (example_world (VStr "tok") ok_200)
           "FastMCP" "_MCP_server" (Class "FastMCP")).
  - reflexivity.
  - reflexivity.
  - cbn. tauto.
  - right. reflexivity.
Defined.

Lemma inr_inj {A B : Type} (x y : B) : @inr A B x = inr y -> x = y.
Proof. intro H. now injection H. Qed.

(** X20. Every name [get_registered_tools] returns can be called: a POST
    to [/tools/<name>] whose body was read is never answered 404. *)
Theorem discovered_tools_are_served (dir : pyobj -> list string)
    (names : list string) (name : string) (req : request)
    (post_data : string) (w : world) :
  outcome (@get_registered_tools exn dir) w = inr names ->
  In name names ->
  path req = "/tools/" ++ name ->
  read_body req = inr post_data ->
  response_code (outcome (do_POST req) w) <> Some 404%Z.
Proof.
  intros Hnames Hin Hpath Hbody.
  destruct (@yields_get_registered_tools exn dir w) as (w' & Hrun & _ & _).
  unfold outcome in Hnames. rewrite Hrun in Hnames. cbn [fst] in Hnames.
  apply inr_inj in Hnames. rewrite <- Hnames in Hin.
  destruct (discovered_bound dir w name Hin) as (o & Hget & Hcallable).
  unfold outcome. rewrite (do_POST_run req _ _ w Hpath Hbody).
  destruct (params_of req post_data) as [e|[params|]];
    [discriminate | | discriminate].
  rewrite Hget, Hcallable, call_tool_run.
  destruct (call o params _) as [[e|[[v|t]|]] w'']; discriminate.
Qed.

Lemma discovered_tools_are_served_witness :
  response_code
    (outcome (do_POST (Request "/tools/get_user_info" (inr "") (inr None)))
             (example_world (VStr "tok") ok_200))
  <> Some 404%Z.
Proof.
  apply (discovered_tools_are_served (fun _ => [])
           ["list_projects"; "list_deployments"; "get_project_info";
            "set_vercel_token"; "check_server_status"; "list_project_domains";
            "list_environment_variables"; "get_user_info";
            "list_deployment_aliases"]
           "get_user_info"
           (Request "/tools/get_user_info" (inr "") (inr None)) ""
           (example_world (VStr "tok") ok_200)).
  - reflexivity.
  - cbn. tauto.
  - reflexivity.
  - reflexivity.
Defined.

(* ===================================================================== *)
(** ** What [do_GET] answers *)

Lemma yields_describe_all {E : Type} (doc : pyobj -> option string)
    (names : list string) (w : world) :
  yields (@describe_all E doc names) w
         (map (tool_entry doc (module_globals w)) names).
Proof.
  revert w. induction names as [|name names IH]; intro w; [apply yields_ret|].
  cbn [describe_all map]. unfold describe.
  eapply yields_bind.
  - eapply yields_bind; [exists w; now conjuncts|]. intros w1 H1.
    apply yields_ret.
  - intros w1 H1. cbv beta.
    eapply yields_bind.
    + apply IH.
    + intros w2 H2. rewrite (module_globals_token w w1 H1). apply yields_ret.
Qed.

Lemma yields_send_json_response (data : value) (w : world) :
  yields (_send_json_response (Value data)) w (json_response data).
Proof.
  cbn [_send_json_response].
  apply yields_bind with (a := tt); [apply yields_print|]. intros w1 _.
  apply yields_bind with (a := tt); [apply yields_print|]. intros w2 _.
  apply yields_ret.
Qed.

Lemma yields_do_GET (dir : pyobj -> list string) (doc : pyobj -> option string)
    (path : string) (w : world) :
  yields (do_GET dir doc path) w
         (if String.eqb path "/tools" then
            json_response
              (VList (map (tool_entry doc (module_globals w))
                          (map fst (filter (discovered dir) (module_globals w)))))
          else if String.eqb path "/" then json_response welcome_data
          else error_response 404 [Lit "Not found: "; Lit path]).
Proof.
  unfold do_GET.
  apply yields_bind with (a := tt); [apply yields_print|]. intros w1 H1.
  destruct (String.eqb path "/tools").
  - eapply yields_bind; [apply yields_now|]. intros w2 H2.
    apply yields_bind with (a := tt); [apply yields_print|]. intros w3 H3.
    eapply yields_bind; [apply yields_get_registered_tools|]. intros w4 H4.
    eapply yields_bind; [apply yields_describe_all|]. intros w5 H5.
    assert (Hglobals : module_globals w4 = module_globals w)
      by (apply module_globals_token; congruence).
    assert (Hglobals3 : module_globals w3 = module_globals w)
      by (apply module_globals_token; congruence).
    rewrite Hglobals, Hglobals3. apply yields_send_json_response.
  - destruct (String.eqb path "/").
    + apply yields_send_json_response.
    + unfold _handle_error. apply yields_ret.
Qed.

(** X21. GET [/tools] answers 200 with one entry for each name that
    [get_registered_tools] returns, in the same order. An entry holds the
    name and a description: the docstring of the object bound to the name,
    stripped, or [No description available] when there is none or it is
    empty. Nothing is sent upstream and [VERCEL_TOKEN] is left as it is. *)
Theorem do_GET_tools (dir : pyobj -> list string)
    (doc : pyobj -> option string) (w : world) :
  exists names : list string,
    outcome (@get_registered_tools exn dir) w = inr names
    /\ outcome (do_GET dir doc "/tools") w
       = inr (json_response
                (VList (map (fun name =>
                               VDict [("name", VStr name);
                                      ("description",
                                       VStr (description_of doc
                                               (dict_get name (module_globals w))))])
                            names)))
    /\ sent (after (do_GET dir doc "/tools") w) = sent w
    /\ VERCEL_TOKEN (after (do_GET dir doc "/tools") w) = VERCEL_TOKEN w.
Proof.
  destruct (@yields_get_registered_tools exn dir w) as (w1 & Hrun1 & _ & _).
  destruct (yields_do_GET dir doc "/tools" w) as (w2 & Hrun2 & Htoken & Hsent).
  eexists. unfold outcome, after. rewrite Hrun1, Hrun2. cbn [fst snd].
  conjuncts; try reflexivity; assumption.
Qed.

(** X22. [do_GET] compares the whole path: [/tools] and [/] are answered
    200, [/] with the welcome data, and every other path, [/tools/] or
    [/tools?x=1] included, is answered 404 without an
    Access-Control-Allow-Origin header. [do_GET] raises nothing, sends
    nothing upstream and leaves [VERCEL_TOKEN] as it is. *)
Theorem do_GET_answers (dir : pyobj -> list string)
    (doc : pyobj -> option string) (path : string) (w : world) :
  exists r : response,
    outcome (do_GET dir doc path) w = inr r
    /\ (path = "/tools" \/ path = "/" ->
        code r = 200%Z
        /\ dict_get "Access-Control-Allow-Origin" (header_lines r)
           = Some (Header "*"))
    /\ (path = "/" -> r = json_response welcome_data)
    /\ (path <> "/tools" -> path <> "/" ->
        r = error_response 404 [Lit "Not found: "; Lit path]
        /\ dict_get "Access-Control-Allow-Origin" (header_lines r) = None)
    /\ sent (after (do_GET dir doc path) w) = sent w
    /\ VERCEL_TOKEN (after (do_GET dir doc path) w) = VERCEL_TOKEN w.
Proof.
  destruct (yields_do_GET dir doc path w) as (w' & Hrun & Htoken & Hsent).
  eexists. unfold outcome, after. rewrite Hrun. cbn [fst snd].
  conjuncts; try reflexivity; try assumption.
  - intros [-> | ->]; split; reflexivity.
  - intros ->. reflexivity.
  - intros Htools Hroot.
    destruct (String.eqb_spec path "/tools") as [|_]; [contradiction|].
    destruct (String.eqb_spec path "/") as [|_]; [contradiction|].
    split; reflexivity.
Qed.
